(** * Secure file sharing backend: a shallow embedding of [backend/main.py]

    The development follows the layout of the source file: the Python
    helpers it calls ([str.lower], [os.path.splitext], [os.path.join]),
    the two external libraries in an idealised (symbolic) form
    (python-jose for the bearer tokens, passlib for the password hashes),
    the pydantic models, the three process-wide tables, the utility
    functions, the FastAPI dependencies and finally the routes.  The
    properties of the specification are stated and proved afterwards. *)

From Stdlib Require Import ZArith Ascii String Bool Lia.
From stdpp Require Import base option gmap strings list fin_maps.

Local Open Scope Z_scope.

(** ** Python strings *)

Module PyStr.

(** [str.lower] restricted to the ASCII letters.  A Python string is a
    sequence of code points; here it is the byte string of its UTF-8
    encoding.  Bytes above 127 are left alone: no code point outside
    ASCII lower-cases to one of the letters of the three allowed
    extensions, so membership in the allowed set is not affected. *)
Definition is_upper (c : ascii) : bool :=
  let n := nat_of_ascii c in (65 <=? n)%nat && (n <=? 90)%nat.

Definition lower_char (c : ascii) : ascii :=
  if is_upper c then ascii_of_nat (nat_of_ascii c + 32) else c.

Fixpoint lower (s : string) : string :=
  match s with
  | EmptyString => EmptyString
  | String c s' => String (lower_char c) (lower s')
  end.

(** [s.rfind(c)]: index of the last occurrence of [c], [-1] if none. *)
Fixpoint rfind_from (c : ascii) (s : string) (i last : Z) : Z :=
  match s with
  | EmptyString => last
  | String a s' =>
      rfind_from c s' (i + 1) (if Ascii.eqb a c then i else last)
  end.

Definition rfind (s : string) (c : ascii) : Z := rfind_from c s 0 (-1).

(** The slices [s[:n]] and [s[n:]] for [0 <= n]. *)
Fixpoint slice_to (s : string) (n : nat) : string :=
  match n, s with
  | S n', String c s' => String c (slice_to s' n')
  | _, _ => EmptyString
  end.

Fixpoint slice_from (s : string) (n : nat) : string :=
  match n, s with
  | S n', String _ s' => slice_from s' n'
  | _, _ => s
  end.

(** [s[i:i+1] != "."] *)
Definition not_dot_at (s : string) (i : Z) : bool :=
  match String.get (Z.to_nat i) s with
  | Some c => negb (Ascii.eqb c ".")
  | None => true
  end.

(** The [while filenameIndex < dotIndex] loop of [genericpath._splitext]:
    [true] when it reaches the [return p[:dotIndex], p[dotIndex:]], that
    is when some character between the separator and the last dot is not
    a dot.  [n] is the number of iterations left, [dotIndex -
    filenameIndex]. *)
Fixpoint skip_leading_dots (p : string) (filenameIndex : Z) (n : nat) : bool :=
  match n with
  | O => false
  | S n' =>
      if not_dot_at p filenameIndex then true
      else skip_leading_dots p (filenameIndex + 1) n'
  end.

(** [os.path.splitext] of [posixpath] ([sep = "/"], no [altsep],
    [extsep = "."]). *)
Definition splitext (p : string) : string * string :=
  let sepIndex := rfind p "/" in
  let dotIndex := rfind p "." in
  if (sepIndex <? dotIndex)
     && skip_leading_dots p (sepIndex + 1) (Z.to_nat (dotIndex - (sepIndex + 1)))
  then (slice_to p (Z.to_nat dotIndex), slice_from p (Z.to_nat dotIndex))
  else (p, EmptyString).

Definition startswith_sep (s : string) : bool :=
  match s with String "/" _ => true | _ => false end.

Fixpoint endswith_sep (s : string) : bool :=
  match s with
  | EmptyString => false
  | String c EmptyString => Ascii.eqb c "/"
  | String _ s' => endswith_sep s'
  end.

(** [os.path.join(a, b)] of [posixpath] for two components. *)
Definition path_join (a b : string) : string :=
  if startswith_sep b then b
  else if String.eqb a "" || endswith_sep a then a +:+ b
  else a +:+ "/" +:+ b.

(** Membership in a Python set of strings. *)
Definition str_in (s : string) (l : list string) : bool :=
  existsb (String.eqb s) l.

End PyStr.

(** ** Python dictionaries that are read back in order

    A Python [dict] keeps its keys in insertion order, and [list_files]
    returns [list(files_db.values())]: the file registry is an association
    list with one entry per key, oldest first.  The other two tables are
    only looked up by key and are finite maps. *)

Module PyDict.

Definition get {V} (k : string) (d : list (string * V)) : option V :=
  snd <$> List.find (fun kv => String.eqb (fst kv) k) d.

(** [k in d] *)
Definition contains {V} (k : string) (d : list (string * V)) : bool :=
  match get k d with Some _ => true | None => false end.

(** [d[k] = v]: an existing key keeps its position, a new one goes last. *)
Fixpoint set {V} (k : string) (v : V) (d : list (string * V)) : list (string * V) :=
  match d with
  | [] => [(k, v)]
  | (k', v') :: d' =>
      if String.eqb k' k then (k', v) :: d' else (k', v') :: set k v d'
  end.

(** [d.values()] *)
Definition values {V} (d : list (string * V)) : list V := map snd d.

End PyDict.

(** ** Clock values

    A naive UTC [datetime] is the number of microseconds since the epoch, a
    [timedelta] a number of microseconds.  Every call of
    [datetime.utcnow()] in the source is an argument of the function that
    makes it. *)

Module Datetime.

Abbreviation datetime := Z (only parsing).
Abbreviation timedelta := Z (only parsing).

Definition minutes (n : Z) : timedelta := n * 60 * 1000000.

(** [calendar.timegm(d.utctimetuple())]: whole seconds since the epoch,
    the microseconds dropped. *)
Definition timegm (d : datetime) : Z := d / 1000000.

(** The first instant of second [n]. *)
Definition fromtimestamp (n : Z) : datetime := n * 1000000.

End Datetime.
Import Datetime.

(** ** Errors: [HTTPException] and the result of a handler *)

Record HTTPException := mkHTTPException {
  status_code : Z;
  detail : string;
  headers : list (string * string)
}.

Inductive result (A : Type) : Type :=
| Return (a : A)
| Raise (e : HTTPException).
Arguments Return {A} a.
Arguments Raise {A} e.

(** A raised exception skips the rest of the handler.  [result] is a monad
    in stdpp's sense, so handlers are written with [x ← e; k]. *)
#[global] Instance result_ret : MRet result := fun _ a => Return a.

#[global] Instance result_bind : MBind result := fun _ _ k r =>
  match r with
  | Return a => k a
  | Raise e => Raise e
  end.

Definition HTTP_400_BAD_REQUEST : Z := 400.
Definition HTTP_401_UNAUTHORIZED : Z := 401.
Definition HTTP_403_FORBIDDEN : Z := 403.

(** ** [validate_file_type] *)

Definition allowed_extensions : list string := [".pptx"; ".docx"; ".xlsx"].

Definition unsupported_file_type : HTTPException :=
  mkHTTPException HTTP_400_BAD_REQUEST
    "Only .pptx, .docx, .xlsx files are allowed" [].

Definition validate_file_type (filename : string) : result unit :=
  let ext := PyStr.lower (snd (PyStr.splitext filename)) in
  if negb (PyStr.str_in ext allowed_extensions)
  then Raise unsupported_file_type
  else Return tt.

(** ** python-jose, symbolically

    The signature of a token is the term [HMAC key alg payload]: two
    signatures agree exactly when key, algorithm and payload agree (no
    forgery, no collision).  A token is either a string that does not parse
    as a compact JWS, or a header algorithm, a claim set and a signature.
    The claim set has the three claims this code writes and reads; [sub] is
    a string or absent, as [jwt.decode] itself enforces. *)

Module Jose.

(** The dictionary handed to [jwt.encode]: [exp] is still a [datetime]. *)
Record payload := mkPayload {
  p_sub : option string;
  p_user_type : option string;
  p_exp : option datetime
}.

(** The claims of a token: [exp] is a NumericDate, in seconds. *)
Record claims := mkClaims {
  sub : option string;
  user_type : option string;
  exp : option Z
}.

Inductive signature := HMAC (key alg : string) (signed : claims).

Inductive token :=
| Malformed (raw : string)
| Compact (alg : string) (body : claims) (sig : signature).

Inductive JWTError :=
| DecodeError
| InvalidAlgorithm
| SignatureVerificationFailed
| ExpiredSignatureError.

#[global] Instance claims_eq_dec : EqDecision claims.
Proof. solve_decision. Defined.

#[global] Instance signature_eq_dec : EqDecision signature.
Proof. solve_decision. Defined.

(** [jwt.encode(claims, key, algorithm)]: a [datetime] under [exp] is
    replaced by [timegm(exp.utctimetuple())] before signing. *)
Definition encode (p : payload) (key algorithm : string) : token :=
  let body := mkClaims (p_sub p) (p_user_type p) (timegm <$> p_exp p) in
  Compact algorithm body (HMAC key algorithm body).

(** [_validate_exp]: the token is refused when [exp < now], [now] being
    [timegm(datetime.utcnow().utctimetuple())]; a token without [exp] is
    not checked. *)
Definition validate_exp (body : claims) (now : datetime) : bool :=
  match exp body with
  | Some e => negb (e <? timegm now)
  | None => true
  end.

(** [jwt.decode(token, key, algorithms)] read at clock value [now]. *)
Definition decode (tok : token) (key : string) (algorithms : list string)
    (now : datetime) : JWTError + claims :=
  match tok with
  | Malformed _ => inl DecodeError
  | Compact alg body sig =>
      if negb (PyStr.str_in alg algorithms) then inl InvalidAlgorithm
      else if negb (bool_decide (sig = HMAC key alg body))
      then inl SignatureVerificationFailed
      else if negb (validate_exp body now) then inl ExpiredSignatureError
      else inr body
  end.

End Jose.

(** ** passlib, symbolically

    A [pbkdf2_sha256] digest is the term made of its salt and the secret it
    was derived from; verification compares the secrets. *)

Module Passlib.

Inductive digest := PBKDF2_SHA256 (salt secret : string).

Definition hash (salt secret : string) : digest := PBKDF2_SHA256 salt secret.

Definition verify (secret : string) (d : digest) : bool :=
  match d with PBKDF2_SHA256 _ s => String.eqb secret s end.

End Passlib.

(** ** Configuration and models *)

Definition ALGORITHM : string := "HS256".
Definition ACCESS_TOKEN_EXPIRE_MINUTES : Z := 30.
Definition FILE_STORAGE : string := "uploaded_files".

Record Token := mkToken {
  access_token : Jose.token;
  token_type : string
}.

Module TokenData.
Record t := mk {
  username : option string;
  user_type : option string
}.
End TokenData.

(** [UserInDB], the [User] model with the password hash. *)
Record UserInDB := mkUser {
  username : string;
  email : string;
  full_name : option string;
  disabled : option bool;
  user_type : string;
  hashed_password : Passlib.digest
}.

(** The values of [files_db].  [upload_date] is kept as the clock value
    whose [str] the source stores. *)
Module FileInfo.
Record t := mk {
  file_id : string;
  filename : string;
  uploaded_by : string;
  upload_date : Z;
  file_path : string
}.
End FileInfo.

(** The values of [download_tokens_db]; [expires] as for [upload_date]. *)
Module Grant.
Record t := mk {
  file_id : string;
  user_id : string;
  expires : Z
}.
End Grant.

Record FileResponse := mkFileResponse {
  path : string;
  download_name : string;
  media_type : string
}.

Record UploadResponse := mkUploadResponse {
  upload_message : string;
  uploaded_file_id : string
}.

Record DownloadLink := mkDownloadLink {
  download_link : string;
  link_message : string
}.

(** ** Process state: the secret key, the three tables and the upload
    directory. *)

Record World := mkWorld {
  SECRET_KEY : string;
  fake_users_db : gmap string UserInDB;
  files_db : list (string * FileInfo.t);
  download_tokens_db : gmap string Grant.t;
  uploaded_files : gmap string string
}.

(** The two accounts of the source; the salts are drawn when the module is
    loaded. *)
Definition initial_users (salt_ops salt_client : string) : gmap string UserInDB :=
  <["opsuser" := mkUser "opsuser" "ops@example.com" (Some "Operation User")
                   (Some false) "ops" (Passlib.hash salt_ops "secret")]>
  (<["clientuser" := mkUser "clientuser" "client@example.com" (Some "Client User")
                   (Some false) "client" (Passlib.hash salt_client "secret")]> ∅).

Definition initial_world (key salt_ops salt_client : string) : World :=
  mkWorld key (initial_users salt_ops salt_client) [] ∅ ∅.

(** ** Utility functions *)

Definition verify_password (plain_password : string)
    (hashed_password : Passlib.digest) : bool :=
  Passlib.verify plain_password hashed_password.

(** [None] when [username] is not a key of [db]. *)
Definition get_user (db : gmap string UserInDB) (username : string) : option UserInDB :=
  db !! username.

(** The source returns [False] or the user; [None] stands for [False]. *)
Definition authenticate_user (fake_db : gmap string UserInDB)
    (username password : string) : option UserInDB :=
  match get_user fake_db username with
  | None => None
  | Some user =>
      if negb (verify_password password (hashed_password user)) then None
      else Some user
  end.

(** [utcnow] is the value of the one [datetime.utcnow()] the call makes.
    [if expires_delta:] is false for [None] and for a zero [timedelta]. *)
Definition create_access_token (key : string) (data : Jose.payload)
    (expires_delta : option timedelta) (utcnow : datetime) : Jose.token :=
  let expire :=
    match expires_delta with
    | Some d => if d =? 0 then utcnow + minutes 15 else utcnow + d
    | None => utcnow + minutes 15
    end in
  let to_encode :=
    Jose.mkPayload (Jose.p_sub data) (Jose.p_user_type data) (Some expire) in
  Jose.encode to_encode key ALGORITHM.

(** ** Dependencies *)

Definition www_authenticate : list (string * string) :=
  [("WWW-Authenticate", "Bearer")].

Definition credentials_exception : HTTPException :=
  mkHTTPException HTTP_401_UNAUTHORIZED "Could not validate credentials"
    www_authenticate.

(** [OAuth2PasswordBearer]: the bearer token of the [Authorization] header,
    401 when the request carries none. *)
Definition oauth2_scheme (authorization : option Jose.token) : result Jose.token :=
  match authorization with
  | Some token => Return token
  | None =>
      Raise (mkHTTPException HTTP_401_UNAUTHORIZED "Not authenticated"
               www_authenticate)
  end.

Definition get_current_user (w : World) (utcnow : datetime)
    (token : Jose.token) : result UserInDB :=
  match Jose.decode token (SECRET_KEY w) [ALGORITHM] utcnow with
  | inl _ => Raise credentials_exception
  | inr payload =>
      match Jose.sub payload, Jose.user_type payload with
      | Some username, Some user_type =>
          let token_data := TokenData.mk (Some username) (Some user_type) in
          match TokenData.username token_data with
          | Some name =>
              match get_user (fake_users_db w) name with
              | None => Raise credentials_exception
              | Some user => Return user
              end
          | None => Raise credentials_exception
          end
      | _, _ => Raise credentials_exception
      end
  end.

Definition get_current_ops_user (current_user : UserInDB) : result UserInDB :=
  if negb (String.eqb (user_type current_user) "ops")
  then Raise (mkHTTPException HTTP_403_FORBIDDEN
                "Only operation users can perform this action" [])
  else Return current_user.

Definition get_current_client_user (current_user : UserInDB) : result UserInDB :=
  if negb (String.eqb (user_type current_user) "client")
  then Raise (mkHTTPException HTTP_403_FORBIDDEN
                "Only client users can perform this action" [])
  else Return current_user.

(** The chains FastAPI resolves before it calls a route:
    [Depends(get_current_user)], [Depends(get_current_ops_user)] and
    [Depends(get_current_client_user)]. *)
Definition depends_current_user (w : World) (utcnow : datetime)
    (authorization : option Jose.token) : result UserInDB :=
  token ← oauth2_scheme authorization; get_current_user w utcnow token.

Definition depends_ops_user (w : World) (utcnow : datetime)
    (authorization : option Jose.token) : result UserInDB :=
  current_user ← depends_current_user w utcnow authorization;
  get_current_ops_user current_user.

Definition depends_client_user (w : World) (utcnow : datetime)
    (authorization : option Jose.token) : result UserInDB :=
  current_user ← depends_current_user w utcnow authorization;
  get_current_client_user current_user.

(** ** Routes

    A route that writes a table returns the new state next to its result;
    a clock value or a [uuid4()] it draws is an argument. *)

(** [POST /token] *)
Definition login (w : World) (utcnow : datetime)
    (form_username form_password : string) : result Token :=
  match authenticate_user (fake_users_db w) form_username form_password with
  | None =>
      Raise (mkHTTPException HTTP_401_UNAUTHORIZED
               "Incorrect username or password" www_authenticate)
  | Some user =>
      let access_token_expires := minutes ACCESS_TOKEN_EXPIRE_MINUTES in
      let access_token :=
        create_access_token (SECRET_KEY w)
          (Jose.mkPayload (Some (username user)) (Some (user_type user)) None)
          (Some access_token_expires) utcnow in
      Return (mkToken access_token "bearer")
  end.

(** [POST /ops/upload]: [t_auth] is the clock at token verification,
    [t_upload] the one read for [upload_date]. *)
Definition upload_file (w : World) (t_auth t_upload : datetime) (uuid4 : string)
    (authorization : option Jose.token) (file_filename file_content : string)
    : result UploadResponse * World :=
  match depends_ops_user w t_auth authorization with
  | Raise e => (Raise e, w)
  | Return current_user =>
      match validate_file_type file_filename with
      | Raise e => (Raise e, w)
      | Return _ =>
          let file_id := uuid4 in
          let file_path := PyStr.path_join FILE_STORAGE file_id in
          let file_info :=
            FileInfo.mk file_id file_filename (username current_user)
              t_upload file_path in
          (Return (mkUploadResponse "File uploaded successfully" file_id),
           mkWorld (SECRET_KEY w) (fake_users_db w)
             (PyDict.set file_id file_info (files_db w))
             (download_tokens_db w)
             (<[file_path := file_content]> (uploaded_files w)))
      end
  end.

(** [GET /client/files] *)
Definition list_files (w : World) (t_auth : datetime)
    (authorization : option Jose.token) : result (list FileInfo.t) :=
  current_user ← depends_client_user w t_auth authorization;
  mret (PyDict.values (files_db w)).

Definition not_found (d : string) : HTTPException := mkHTTPException 404 d [].

(** [GET /client/download/{file_id}] *)
Definition get_download_link (w : World) (t_auth t_mint : datetime)
    (uuid4 : string) (authorization : option Jose.token) (file_id : string)
    : result DownloadLink * World :=
  match depends_client_user w t_auth authorization with
  | Raise e => (Raise e, w)
  | Return current_user =>
      if negb (PyDict.contains file_id (files_db w))
      then (Raise (not_found "File not found"), w)
      else
        let download_token := uuid4 in
        (Return (mkDownloadLink ("/download-file/" +:+ download_token) "success"),
         mkWorld (SECRET_KEY w) (fake_users_db w) (files_db w)
           (<[download_token :=
                Grant.mk file_id (username current_user) (t_mint + minutes 30)]>
              (download_tokens_db w))
           (uploaded_files w))
  end.

(** [GET /download-file/{token}]: no dependency, no clock, no write. *)
Definition download_file (w : World) (token : string) : result FileResponse * World :=
  match download_tokens_db w !! token with
  | None => (Raise (not_found "Invalid download link"), w)
  | Some grant =>
      let file_id := Grant.file_id grant in
      match PyDict.get file_id (files_db w) with
      | None => (Raise (not_found "File not found"), w)
      | Some file_info =>
          (Return (mkFileResponse (FileInfo.file_path file_info)
                     (FileInfo.filename file_info) "application/octet-stream"),
           w)
      end
  end.

(** [GET /me] *)
Definition read_users_me (w : World) (t_auth : datetime)
    (authorization : option Jose.token) : result UserInDB :=
  depends_current_user w t_auth authorization.

(** ** Vocabulary of the specification *)

(** The failure kinds of the specification are told apart by the status the
    boundary answers with. *)
Definition fails_with {A} (status : Z) (r : result A) : Prop :=
  match r with
  | Raise e => status_code e = status
  | Return _ => False
  end.

Definition Unauthenticated {A} (r : result A) : Prop := fails_with 401 r.
Definition Forbidden {A} (r : result A) : Prop := fails_with 403 r.
Definition NotFound {A} (r : result A) : Prop := fails_with 404 r.
Definition UnsupportedFileType {A} (r : result A) : Prop := fails_with 400 r.

(** The store is keyed by the username of its records, as in the source's
    table. *)
Definition keyed_by_username (db : gmap string UserInDB) : Prop :=
  forall k user, db !! k = Some user -> username user = k.

(** The claims a token carries, read without verification. *)
Definition unverified_claims (tok : Jose.token) : option Jose.claims :=
  match tok with
  | Jose.Compact _ body _ => Some body
  | Jose.Malformed _ => None
  end.

(** Two characters are the same letter up to case when they are equal or
    one is the capital [A + k] and the other the small [a + k]. *)
Definition same_letter (c d : ascii) : bool :=
  let m := nat_of_ascii c in
  let n := nat_of_ascii d in
  ((m =? n) || ((65 <=? m) && (m <=? 90) && (n =? m + 32))
   || ((65 <=? n) && (n <=? 90) && (m =? n + 32)))%nat.

(** Comparison of two strings without regard to case. *)
Fixpoint eq_nocase (s t : string) : bool :=
  match s, t with
  | EmptyString, EmptyString => true
  | String c s', String d t' => same_letter c d && eq_nocase s' t'
  | _, _ => false
  end.

(** The extension is one of the three allowed ones, case aside. *)
Definition allowed_nocase (ext : string) : bool :=
  existsb (eq_nocase ext) allowed_extensions.

(** [c in s] for a character. *)
Fixpoint occurs (c : ascii) (s : string) : bool :=
  match s with
  | EmptyString => false
  | String a s' => Ascii.eqb a c || occurs c s'
  end.

(** A file name proper: the last component of [stem] has a character that
    is not a dot, and [suffix] has neither dot nor separator, so that
    [stem.suffix] reads as a name followed by its extension. *)
Definition named (stem suffix : string) : Prop :=
  (exists a x b, stem = a +:+ String x b /\ x <> "."%char /\ x <> "/"%char
                 /\ occurs "/" b = false)
  /\ occurs "." suffix = false /\ occurs "/" suffix = false.

(** ** A run of the service

    The accounts of the source, one upload by [opsuser] and one grant
    minted by [clientuser] at second 1000. *)

Definition world0 : World := initial_world "k3y" "salt-o" "salt-c".

Definition bearer_of (r : result Token) : option Jose.token :=
  match r with
  | Return t => Some (access_token t)
  | Raise _ => None
  end.

Definition ops_bearer : option Jose.token :=
  bearer_of (login world0 0 "opsuser" "secret").

Definition client_bearer : option Jose.token :=
  bearer_of (login world0 0 "clientuser" "secret").

Definition world1 : World :=
  snd (upload_file world0 (fromtimestamp 10) (fromtimestamp 10) "file-1"
         ops_bearer "Q3.xlsx" "bytes").

Definition world2 : World :=
  snd (get_download_link world1 (fromtimestamp 1000) (fromtimestamp 1000)
         "grant-1" client_bearer "file-1").

(** A validly signed token that names [opsuser] with the role [client],
    good until second 5000. *)
Definition relabelled_bearer : Jose.token :=
  Jose.encode (Jose.mkPayload (Some "opsuser") (Some "client")
                 (Some (fromtimestamp 5000)))
    (SECRET_KEY world0) ALGORITHM.

(** The accounts of the source with [opsuser] switched off. *)
Definition world_disabled : World :=
  mkWorld "k3y"
    (<["opsuser" := mkUser "opsuser" "ops@example.com" (Some "Operation User")
                      (Some true) "ops" (Passlib.hash "salt-o" "secret")]>
       (fake_users_db world0))
    [] ∅ ∅.

Definition disabled_bearer : option Jose.token :=
  bearer_of (login world_disabled 0 "opsuser" "secret").

Definition relabelled_claims : Jose.claims :=
  Jose.mkClaims (Some "opsuser") (Some "client") (Some 5000).

Definition ops_record : UserInDB :=
  mkUser "opsuser" "ops@example.com" (Some "Operation User") (Some false)
    "ops" (Passlib.hash "salt-o" "secret").

Definition client_record : UserInDB :=
  mkUser "clientuser" "client@example.com" (Some "Client User") (Some false)
    "client" (Passlib.hash "salt-c" "secret").

Definition disabled_record : UserInDB :=
  mkUser "opsuser" "ops@example.com" (Some "Operation User") (Some true)
    "ops" (Passlib.hash "salt-o" "secret").

(** The claims [login] writes for [opsuser] at clock value 0. *)
Definition ops_claims : Jose.claims :=
  Jose.mkClaims (Some "opsuser") (Some "ops") (Some 1800).

Definition signed (key : string) (body : Jose.claims) : Jose.token :=
  Jose.Compact ALGORITHM body (Jose.HMAC key ALGORITHM body).

(** The state [w] with the grant table entry of [token] written anew. *)
Definition with_grant (w : World) (token : string) (grant : Grant.t) : World :=
  mkWorld (SECRET_KEY w) (fake_users_db w) (files_db w)
    (<[token := grant]> (download_tokens_db w)) (uploaded_files w).

Definition file1_record : FileInfo.t :=
  FileInfo.mk "file-1" "Q3.xlsx" "opsuser" 10000000 "uploaded_files/file-1".

Definition file1_response : FileResponse :=
  mkFileResponse "uploaded_files/file-1" "Q3.xlsx" "application/octet-stream".

Definition grant1 : Grant.t := Grant.mk "file-1" "clientuser" 2800000000.

Definition forbidden_client : HTTPException :=
  mkHTTPException HTTP_403_FORBIDDEN
    "Only client users can perform this action" [].

(** ** Readings of the specification that the code is compared with *)

(** The guard answers with the role written in the token. *)
Definition guard_uses_token_role : Prop :=
  forall w now tok body user,
    Jose.decode tok (SECRET_KEY w) [ALGORITHM] now = inr body ->
    get_current_user w now tok = Return user ->
    Jose.user_type body = Some (user_type user).

(** The guard refuses a token whose subject is switched off in the store. *)
Definition guard_rejects_disabled : Prop :=
  forall w now tok body name user,
    Jose.decode tok (SECRET_KEY w) [ALGORITHM] now = inr body ->
    Jose.sub body = Some name ->
    fake_users_db w !! name = Some user ->
    disabled user = Some true ->
    Unauthenticated (get_current_user w now tok).

(** A token of [login] expires 30 minutes after issuance, is refused from
    its expiry instant on, and is not refused for expiry one second
    earlier. *)
Definition bearer_refused_from_expiry_on : Prop :=
  forall w t_login name password tok body e,
    login w t_login name password = Return tok ->
    unverified_claims (access_token tok) = Some body ->
    Jose.exp body = Some e ->
    e = timegm (t_login + minutes 30)
    /\ (forall t, fromtimestamp e <= t ->
          Unauthenticated (get_current_user w t (access_token tok)))
    /\ Jose.decode (access_token tok) (SECRET_KEY w) [ALGORITHM]
         (fromtimestamp (e - 1)) <> inl Jose.ExpiredSignatureError.

(** A grant whose window has elapsed is not redeemed. *)
Definition expired_grant_not_found : Prop :=
  forall w token grant now,
    download_tokens_db w !! token = Some grant ->
    Grant.expires grant < now ->
    NotFound (fst (download_file w token)).

(** ** The Streamlit front end ([frontend/app.py])

    The session state and [login]: the request [requests.post(BACKEND_URL +
    "/token", ...)] is answered by the route [login] of a reachable back
    end in state [backend], a status other than 200 being a raised
    exception.  The return value is the function's [True]/[False]. *)

Module Frontend.

Record session_state := mk {
  token : option Jose.token;
  user_type : option string;
  username : option string
}.

(** The state at the start of a session: the three keys set to [None]. *)
Definition initial : session_state := mk None None None.

Definition login (st : session_state) (backend : World) (utcnow : datetime)
    (username password : string) : bool * session_state :=
  match login backend utcnow username password with
  | Return response =>
      (true,
       mk (Some (access_token response))
          (Some (if String.eqb username "opsuser" then "ops" else "client"))
          (Some username))
  | Raise _ => (false, st)
  end.

Definition logout (st : session_state) : session_state := mk None None None.

End Frontend.

(** ** Further names used in the statements *)


Definition forbidden_ops : HTTPException :=
  mkHTTPException HTTP_403_FORBIDDEN
    "Only operation users can perform this action" [].


(** The record [upload_file] writes for a file. *)
Definition uploaded_record (uuid4 file_filename uploader : string)
    (t_upload : datetime) : FileInfo.t :=
  FileInfo.mk uuid4 file_filename uploader t_upload
    (PyStr.path_join FILE_STORAGE uuid4).

(** A store with a second operations account, [auditor]. *)
Definition world_two_ops : World :=
  mkWorld "k3y"
    (<["auditor" := mkUser "auditor" "audit@example.com" None (Some false)
                      "ops" (Passlib.hash "salt-a" "hunter2")]>
       (fake_users_db world0))
    [] ∅ ∅.

(** ** The states the service can be in

    The process starts with the two accounts, empty tables and whatever
    the upload directory already holds; the state changes only through the
    three routes below, the other routes write nothing. *)

Inductive reachable : World -> Prop :=
| reach_start key salt_ops salt_client disk :
    reachable (mkWorld key (initial_users salt_ops salt_client) [] ∅ disk)
| reach_upload w t_auth t_upload uuid4 auth fname content :
    reachable w ->
    reachable (snd (upload_file w t_auth t_upload uuid4 auth fname content))
| reach_link w t_auth t_mint uuid4 auth file_id :
    reachable w ->
    reachable (snd (get_download_link w t_auth t_mint uuid4 auth file_id))
| reach_download w token :
    reachable w -> reachable (snd (download_file w token)).

(** Every record of the registry sits under its own id, names the path
    [FILE_STORAGE/<id>], and a file is stored at that path. *)
Definition registry_consistent (w : World) : Prop :=
  forall k record,
    PyDict.get k (files_db w) = Some record ->
    FileInfo.file_id record = k
    /\ FileInfo.file_path record = PyStr.path_join FILE_STORAGE k
    /\ is_Some (uploaded_files w !! FileInfo.file_path record).

(** Every grant names a registered file and, as grantee, the user name of
    a client account. *)
Definition grants_valid (w : World) : Prop :=
  forall token grant,
    download_tokens_db w !! token = Some grant ->
    is_Some (PyDict.get (Grant.file_id grant) (files_db w))
    /\ exists name user,
         fake_users_db w !! name = Some user
         /\ username user = Grant.user_id grant
         /\ user_type user = "client".

(** * Properties *)

(** ** Strings *)

Section strings.

Lemma upper_code c :
  PyStr.is_upper c = true <-> (65 <= nat_of_ascii c <= 90)%nat.
Proof.
  unfold PyStr.is_upper. rewrite andb_true_iff, !Nat.leb_le. tauto.
Qed.

Lemma lower_char_code c :
  nat_of_ascii (PyStr.lower_char c) =
  if PyStr.is_upper c then (nat_of_ascii c + 32)%nat else nat_of_ascii c.
Proof.
  unfold PyStr.lower_char.
  destruct (PyStr.is_upper c) eqn:E; [|reflexivity].
  apply upper_code in E. apply nat_ascii_embedding. lia.
Qed.

Lemma code_inj c d : nat_of_ascii c = nat_of_ascii d -> c = d.
Proof.
  intros H. rewrite <- (ascii_nat_embedding c), <- (ascii_nat_embedding d).
  now rewrite H.
Qed.

(** Lower-casing both sides and comparing is comparing without case. *)
Lemma same_letter_lower c d :
  same_letter c d = true <-> PyStr.lower_char c = PyStr.lower_char d.
Proof.
  split.
  - intros H. apply code_inj. rewrite !lower_char_code.
    unfold same_letter in H.
    destruct (PyStr.is_upper c) eqn:Ec, (PyStr.is_upper d) eqn:Ed;
      try (apply upper_code in Ec); try (apply upper_code in Ed);
      try (apply not_true_iff_false in Ec; rewrite upper_code in Ec);
      try (apply not_true_iff_false in Ed; rewrite upper_code in Ed);
      rewrite !orb_true_iff, !andb_true_iff, !Nat.leb_le, !Nat.eqb_eq in H;
      lia.
  - intros H. apply (f_equal nat_of_ascii) in H. rewrite !lower_char_code in H.
    unfold same_letter.
    rewrite !orb_true_iff, !andb_true_iff, !Nat.leb_le, !Nat.eqb_eq.
    destruct (PyStr.is_upper c) eqn:Ec, (PyStr.is_upper d) eqn:Ed;
      try (apply upper_code in Ec); try (apply upper_code in Ed);
      try (apply not_true_iff_false in Ec; rewrite upper_code in Ec);
      try (apply not_true_iff_false in Ed; rewrite upper_code in Ed);
      lia.
Qed.

Lemma eq_nocase_lower s : forall t,
  eq_nocase s t = true <-> PyStr.lower s = PyStr.lower t.
Proof.
  induction s as [|c s IH]; intros [|d t]; simpl; try (split; congruence).
  rewrite andb_true_iff, same_letter_lower, IH.
  split; [intros [-> ->]; reflexivity | intros H; now inversion H].
Qed.

Lemma str_in_In s l : PyStr.str_in s l = true <-> In s l.
Proof.
  unfold PyStr.str_in. rewrite existsb_exists. split.
  - intros (x & Hx & E). apply String.eqb_eq in E. now subst.
  - intros H. exists s. split; [assumption | apply String.eqb_refl].
Qed.

(** The source's test, [ext.lower() in allowed_extensions], is the
    case-blind membership of the specification. *)
Lemma lower_in_allowed ext :
  PyStr.str_in (PyStr.lower ext) allowed_extensions = allowed_nocase ext.
Proof.
  apply eq_true_iff_eq. unfold allowed_nocase.
  rewrite str_in_In, existsb_exists. split.
  - intros H. exists (PyStr.lower ext). split; [assumption|].
    apply eq_nocase_lower.
    simpl in H. destruct H as [<-|[<-|[<-|[]]]]; reflexivity.
  - intros (a & Ha & E). apply eq_nocase_lower in E. rewrite E.
    simpl in Ha. destruct Ha as [<-|[<-|[<-|[]]]]; simpl; auto.
Qed.

End strings.

Section splitext.

Implicit Types (s t p : string) (c : ascii) (i last : Z).

Lemma app_cons a s t : String a s +:+ t = String a (s +:+ t).
Proof. reflexivity. Qed.

Lemma app_empty_r s : s +:+ EmptyString = s.
Proof.
  induction s as [|a s IH]; [reflexivity|]. now rewrite app_cons, IH.
Qed.

Lemma rfind_from_absent c t : forall i last,
  occurs c t = false -> PyStr.rfind_from c t i last = last.
Proof.
  induction t as [|a t IH]; intros i last H; simpl in *; [reflexivity|].
  apply orb_false_iff in H as [Ha Ht]. rewrite Ha. now apply IH.
Qed.

Lemma rfind_from_app c s : forall t i last,
  occurs c t = false ->
  PyStr.rfind_from c (s +:+ t) i last = PyStr.rfind_from c s i last.
Proof.
  induction s as [|a s IH]; intros t i last H; simpl.
  - now apply rfind_from_absent.
  - now apply IH.
Qed.

Lemma rfind_from_bound c s : forall i last,
  last < i ->
  last <= PyStr.rfind_from c s i last < i + Z.of_nat (String.length s).
Proof.
  induction s as [|a s IH]; intros i last H; simpl String.length; simpl.
  - lia.
  - destruct (Ascii.eqb a c).
    + specialize (IH (i + 1) i). lia.
    + specialize (IH (i + 1) last). lia.
Qed.

Lemma rfind_from_last c s : forall t i last,
  occurs c t = false ->
  PyStr.rfind_from c (s +:+ String c t) i last = i + Z.of_nat (String.length s).
Proof.
  induction s as [|a s IH]; intros t i last H; simpl String.length; simpl.
  - rewrite Ascii.eqb_refl. rewrite rfind_from_absent by assumption. lia.
  - rewrite IH by assumption. lia.
Qed.

Lemma occurs_app c s t : occurs c (s +:+ t) = occurs c s || occurs c t.
Proof.
  induction s as [|a s IH]; simpl; [reflexivity|].
  now rewrite IH, orb_assoc.
Qed.

Lemma get_app_length s x t :
  String.get (String.length s) (s +:+ String x t) = Some x.
Proof. induction s as [|a s IH]; simpl; [reflexivity | exact IH]. Qed.

Lemma slice_to_app s t : PyStr.slice_to (s +:+ t) (String.length s) = s.
Proof.
  induction s as [|a s IH]; simpl.
  - now destruct t.
  - now rewrite IH.
Qed.

Lemma slice_from_app s t : PyStr.slice_from (s +:+ t) (String.length s) = t.
Proof. induction s as [|a s IH]; simpl; [now destruct t | exact IH]. Qed.

Lemma slices_concat p : forall n, PyStr.slice_to p n +:+ PyStr.slice_from p n = p.
Proof.
  induction p as [|a p IH]; intros [|n]; simpl; try reflexivity.
  rewrite app_cons. f_equal. apply IH.
Qed.

(** The loop stops with [true] as soon as one inspected position holds a
    character other than a dot. *)
Lemma skip_leading_dots_found p : forall n start j,
  start <= j < start + Z.of_nat n ->
  PyStr.not_dot_at p j = true ->
  PyStr.skip_leading_dots p start n = true.
Proof.
  induction n as [|n IH]; intros start j Hj Hd; simpl; [lia|].
  destruct (PyStr.not_dot_at p start) eqn:E; [reflexivity|].
  apply (IH (start + 1) j); [|assumption].
  assert (j <> start) by (intros ->; congruence). lia.
Qed.

(** Root and extension always concatenate to the path. *)
Lemma splitext_concat p :
  fst (PyStr.splitext p) +:+ snd (PyStr.splitext p) = p.
Proof.
  unfold PyStr.splitext.
  destruct (_ && _); cbn [fst snd]; [apply slices_concat | apply app_empty_r].
Qed.

Lemma app_assoc_str s t u : (s +:+ t) +:+ u = s +:+ (t +:+ u).
Proof.
  induction s as [|a s IH]; [reflexivity|]. now rewrite !app_cons, IH.
Qed.

Lemma length_app_str s t :
  String.length (s +:+ t) = (String.length s + String.length t)%nat.
Proof.
  induction s as [|a s IH]; [reflexivity|]. rewrite app_cons. simpl.
  now rewrite IH.
Qed.

(** On a file name proper, [splitext] cuts at the last dot. *)
Lemma splitext_named stem suffix :
  named stem suffix ->
  PyStr.splitext (stem +:+ String "." suffix) = (stem, String "." suffix).
Proof.
  intros ((a & x & b & -> & Hdot & Hsep & Hb) & Hs1 & Hs2).
  unfold PyStr.splitext, PyStr.rfind.
  set (stem := a +:+ String x b).
  assert (Hd : PyStr.rfind_from "." (stem +:+ String "." suffix) 0 (-1)
               = Z.of_nat (String.length stem)).
  { rewrite rfind_from_last by assumption. lia. }
  assert (Hrest : occurs "/" (String x (b +:+ String "." suffix)) = false).
  { simpl. rewrite occurs_app. simpl. rewrite Hb, Hs2.
    destruct (Ascii.eqb_spec x "/"); [contradiction | reflexivity]. }
  assert (Hp : stem +:+ String "." suffix
               = a +:+ String x (b +:+ String "." suffix)).
  { unfold stem. now rewrite app_assoc_str, app_cons. }
  assert (Hsl : -1 <= PyStr.rfind_from "/" (stem +:+ String "." suffix) 0 (-1)
                < Z.of_nat (String.length a)).
  { rewrite Hp, rfind_from_app by assumption.
    pose proof (rfind_from_bound "/" a 0 (-1)). lia. }
  assert (Hlen : String.length stem = (String.length a + S (String.length b))%nat).
  { unfold stem. now rewrite length_app_str. }
  rewrite Hd.
  set (sepIndex := PyStr.rfind_from "/" _ 0 (-1)) in *.
  assert (Hlt : (sepIndex <? Z.of_nat (String.length stem)) = true).
  { apply Z.ltb_lt. lia. }
  rewrite Hlt. simpl andb.
  rewrite (skip_leading_dots_found _ _ _ (Z.of_nat (String.length a))).
  - rewrite Nat2Z.id. now rewrite slice_to_app, slice_from_app.
  - lia.
  - unfold PyStr.not_dot_at. rewrite Nat2Z.id, Hp, get_app_length.
    destruct (Ascii.eqb_spec x "."); [contradiction | reflexivity].
Qed.

End splitext.

(** ** Token service and access guard *)

Section guard.

Implicit Types (w : World) (tok : Jose.token) (body : Jose.claims).

Lemma str_in_algorithm alg :
  PyStr.str_in alg [ALGORITHM] = true <-> alg = ALGORITHM.
Proof. rewrite str_in_In. simpl. intuition congruence. Qed.

(** [jwt.decode] returns claims exactly for the tokens signed with the
    key under [HS256] over these claims and not yet past [exp]. *)
Lemma decode_inr tok key now body :
  Jose.decode tok key [ALGORITHM] now = inr body <->
  tok = Jose.Compact ALGORITHM body (Jose.HMAC key ALGORITHM body)
  /\ Jose.validate_exp body now = true.
Proof.
  destruct tok as [raw | alg b sig]; unfold Jose.decode;
    [split; [congruence | intros [? _]; congruence]|].
  destruct (PyStr.str_in alg [ALGORITHM]) eqn:Ea; simpl.
  - apply str_in_algorithm in Ea. subst alg.
    destruct (bool_decide_reflect (sig = Jose.HMAC key ALGORITHM b)) as [->|Hs]; simpl.
    + destruct (Jose.validate_exp b now) eqn:Ev; simpl.
      * split; [intros [= ->]; auto | intros [[= ->] _]; reflexivity].
      * split; [congruence | intros [[= ->] ?]; congruence].
    + split; [congruence | intros [[= -> ->] _]; contradiction].
  - split; [congruence|]. intros [[= -> -> ->] _].
    assert (PyStr.str_in ALGORITHM [ALGORITHM] = true) by reflexivity.
    congruence.
Qed.

Lemma decode_encode p key now :
  let body := Jose.mkClaims (Jose.p_sub p) (Jose.p_user_type p)
                (timegm <$> Jose.p_exp p) in
  Jose.validate_exp body now = true ->
  Jose.decode (Jose.encode p key ALGORITHM) key [ALGORITHM] now = inr body.
Proof. intros body Hv. apply decode_inr. split; [reflexivity | assumption]. Qed.

Lemma decode_expired tok key now body e :
  unverified_claims tok = Some body -> Jose.exp body = Some e ->
  e < timegm now ->
  exists err, Jose.decode tok key [ALGORITHM] now = inl err.
Proof.
  intros Hb He Hlt.
  destruct (Jose.decode tok key [ALGORITHM] now) as [err|b] eqn:E; [eauto|].
  apply decode_inr in E as [-> Hv]. simpl in Hb. injection Hb as ->.
  unfold Jose.validate_exp in Hv. rewrite He in Hv.
  apply negb_true_iff, Z.ltb_ge in Hv. lia.
Qed.

(** With verified claims that carry a subject and a role, the guard
    returns the record the store keeps under the subject. *)
Lemma get_current_user_lookup w now tok body name role :
  Jose.decode tok (SECRET_KEY w) [ALGORITHM] now = inr body ->
  Jose.sub body = Some name -> Jose.user_type body = Some role ->
  get_current_user w now tok =
  match fake_users_db w !! name with
  | Some user => Return user
  | None => Raise credentials_exception
  end.
Proof.
  intros Hd Hs Hr. unfold get_current_user, get_user. rewrite Hd, Hs, Hr.
  reflexivity.
Qed.

Lemma get_current_user_inv w now tok user :
  get_current_user w now tok = Return user ->
  exists body name role,
    Jose.decode tok (SECRET_KEY w) [ALGORITHM] now = inr body
    /\ Jose.sub body = Some name /\ Jose.user_type body = Some role
    /\ fake_users_db w !! name = Some user.
Proof.
  unfold get_current_user, get_user.
  destruct (Jose.decode _ _ _ _) as [err|body]; [discriminate|].
  destruct (Jose.sub body) as [name|] eqn:Hs; [|discriminate].
  destruct (Jose.user_type body) as [role|] eqn:Hr; [|discriminate].
  simpl. destruct (fake_users_db w !! name) eqn:Hu; [|discriminate].
  intros [= ->]. eauto 10.
Qed.

Lemma get_current_user_failure w now tok e :
  get_current_user w now tok = Raise e -> e = credentials_exception.
Proof.
  unfold get_current_user, get_user.
  repeat (case_match; simplify_eq/=); congruence.
Qed.

Lemma role_gate_ops user :
  get_current_ops_user user = Return user <-> user_type user = "ops".
Proof.
  unfold get_current_ops_user.
  destruct (String.eqb_spec (user_type user) "ops"); simpl; split; congruence.
Qed.

Lemma role_gate_client user :
  get_current_client_user user = Return user <-> user_type user = "client".
Proof.
  unfold get_current_client_user.
  destruct (String.eqb_spec (user_type user) "client"); simpl; split; congruence.
Qed.

Lemma role_gate_client_refuses user :
  user_type user <> "client" ->
  get_current_client_user user = Raise forbidden_client.
Proof.
  intros H. unfold get_current_client_user.
  destruct (String.eqb_spec (user_type user) "client"); [contradiction | reflexivity].
Qed.

Lemma login_inv w t name password (tok : Token) :
  login w t name password = Return tok ->
  exists user,
    fake_users_db w !! name = Some user
    /\ verify_password password (hashed_password user) = true
    /\ tok = mkToken
               (Jose.encode
                  (Jose.mkPayload (Some (username user)) (Some (user_type user))
                     (Some (t + minutes 30)))
                  (SECRET_KEY w) ALGORITHM)
               "bearer".
Proof.
  unfold login, authenticate_user, get_user.
  destruct (fake_users_db w !! name) as [user|]; [|discriminate].
  destruct (verify_password password (hashed_password user)) eqn:Hv;
    [|discriminate].
  simpl. intros [= <-]. exists user. auto.
Qed.

Lemma login_ok w t name password user :
  fake_users_db w !! name = Some user ->
  verify_password password (hashed_password user) = true ->
  login w t name password =
  Return (mkToken
            (Jose.encode
               (Jose.mkPayload (Some (username user)) (Some (user_type user))
                  (Some (t + minutes 30)))
               (SECRET_KEY w) ALGORITHM)
            "bearer").
Proof.
  intros Hu Hv. unfold login, authenticate_user, get_user. rewrite Hu, Hv.
  reflexivity.
Qed.

Lemma initial_users_keyed salt_ops salt_client :
  keyed_by_username (initial_users salt_ops salt_client).
Proof.
  intros k user. unfold initial_users.
  rewrite !lookup_insert, lookup_empty.
  repeat case_decide; subst; intros [= <-]; reflexivity.
Qed.

End guard.

(** ** The claims about bearer tokens and the guard *)

(** C2, as the specification words it, does not hold: [world0] records
    [opsuser] with the role [ops], the signed and unexpired token
    [relabelled_bearer] says [client], and the guard answers with [ops]. *)
Lemma guard_uses_token_role_fails : ~ guard_uses_token_role.
Proof.
  intros H.
  assert (Hd : Jose.decode relabelled_bearer (SECRET_KEY world0) [ALGORITHM] 0
               = inr relabelled_claims) by (vm_compute; reflexivity).
  assert (Hg : get_current_user world0 0 relabelled_bearer = Return ops_record)
    by (vm_compute; reflexivity).
  specialize (H world0 0 relabelled_bearer relabelled_claims ops_record Hd Hg).
  discriminate H.
Qed.

(** C2 (amended): for a bearer token with a valid signature and unexpired
    claims, the identity and role the guard resolves are those of the record
    the Credential Store keeps under the token's subject.  The role claim
    only has to be present: the same token signed with any other role claim
    resolves to the same record, and the role gates test the record's
    role. *)
Theorem guard_role_from_store w now tok body user :
  Jose.decode tok (SECRET_KEY w) [ALGORITHM] now = inr body ->
  get_current_user w now tok = Return user ->
  exists name,
    Jose.sub body = Some name
    /\ fake_users_db w !! name = Some user
    /\ is_Some (Jose.user_type body)
    /\ (forall role,
          get_current_user w now
            (signed (SECRET_KEY w)
               (Jose.mkClaims (Jose.sub body) (Some role) (Jose.exp body)))
          = Return user)
    /\ (get_current_ops_user user = Return user <-> user_type user = "ops")
    /\ (get_current_client_user user = Return user <-> user_type user = "client").
Proof.
  intros Hd Hg.
  destruct (get_current_user_inv _ _ _ _ Hg) as (b & name & role & Hd' & Hs & Hr & Hu).
  assert (b = body) by congruence. subst b.
  exists name. split; [assumption|]. split; [assumption|].
  split; [rewrite Hr; eauto|]. split.
  - intros role'.
    apply decode_inr in Hd as [_ Hv].
    erewrite get_current_user_lookup with (name := name) (role := role').
    + now rewrite Hu.
    + apply decode_inr. split; [reflexivity|].
      unfold Jose.validate_exp in *. simpl. exact Hv.
    + simpl. assumption.
    + reflexivity.
  - split; [apply role_gate_ops | apply role_gate_client].
Qed.

Lemma guard_role_from_store_witness :
  Jose.decode relabelled_bearer (SECRET_KEY world0) [ALGORITHM] 0
    = inr relabelled_claims
  /\ get_current_user world0 0 relabelled_bearer = Return ops_record
  /\ exists name,
      Jose.sub relabelled_claims = Some name
      /\ fake_users_db world0 !! name = Some ops_record
      /\ is_Some (Jose.user_type relabelled_claims)
      /\ (forall role,
            get_current_user world0 0
              (signed (SECRET_KEY world0)
                 (Jose.mkClaims (Jose.sub relabelled_claims) (Some role)
                    (Jose.exp relabelled_claims)))
            = Return ops_record)
      /\ (get_current_ops_user ops_record = Return ops_record
          <-> user_type ops_record = "ops")
      /\ (get_current_client_user ops_record = Return ops_record
          <-> user_type ops_record = "client").
Proof.
  split; [vm_compute; reflexivity|]. split; [vm_compute; reflexivity|].
  apply (guard_role_from_store world0 0 relabelled_bearer relabelled_claims
           ops_record); vm_compute; reflexivity.
Defined.

(** C3, as the specification words it, does not hold: in [world_disabled]
    the account [opsuser] is switched off, [login] still issues it a token
    and the guard resolves that token to the account. *)
Lemma guard_rejects_disabled_fails : ~ guard_rejects_disabled.
Proof.
  intros H.
  assert (Hb : disabled_bearer = Some (signed "k3y" ops_claims))
    by (vm_compute; reflexivity).
  assert (Hd : Jose.decode (signed "k3y" ops_claims) (SECRET_KEY world_disabled)
                 [ALGORITHM] 0 = inr ops_claims) by (vm_compute; reflexivity).
  assert (Hu : fake_users_db world_disabled !! "opsuser" = Some disabled_record)
    by (vm_compute; reflexivity).
  specialize (H world_disabled 0 (signed "k3y" ops_claims) ops_claims "opsuser"
                disabled_record Hd eq_refl Hu eq_refl).
  assert (Hg : get_current_user world_disabled 0 (signed "k3y" ops_claims)
               = Return disabled_record) by (vm_compute; reflexivity).
  rewrite Hg in H. exact H.
Qed.

(** C3 (amended): for a bearer token whose signature and expiry checks pass
    and that carries a subject and a role, the guard confirms that the
    subject has a record in the Credential Store and nothing more: without
    a record the request is rejected with Unauthenticated (401), with one
    the record is the caller, whatever its disabled flag. *)
Theorem guard_checks_existence_only w now tok body name role :
  Jose.decode tok (SECRET_KEY w) [ALGORITHM] now = inr body ->
  Jose.sub body = Some name ->
  Jose.user_type body = Some role ->
  (fake_users_db w !! name = None ->
     get_current_user w now tok = Raise credentials_exception
     /\ Unauthenticated (get_current_user w now tok))
  /\ (forall user flag,
        fake_users_db w !! name = Some user -> disabled user = flag ->
        get_current_user w now tok = Return user).
Proof.
  intros Hd Hs Hr.
  rewrite (get_current_user_lookup _ _ _ _ _ _ Hd Hs Hr).
  split.
  - intros ->. split; reflexivity.
  - intros user flag -> _. reflexivity.
Qed.

Lemma guard_checks_existence_only_witness :
  Jose.decode (signed "k3y" ops_claims) (SECRET_KEY world_disabled)
    [ALGORITHM] 0 = inr ops_claims
  /\ Jose.sub ops_claims = Some "opsuser"
  /\ Jose.user_type ops_claims = Some "ops"
  /\ get_current_user world_disabled 0 (signed "k3y" ops_claims)
     = Return disabled_record.
Proof.
  assert (Hd : Jose.decode (signed "k3y" ops_claims) (SECRET_KEY world_disabled)
                 [ALGORITHM] 0 = inr ops_claims) by (vm_compute; reflexivity).
  split; [exact Hd|]. split; [reflexivity|]. split; [reflexivity|].
  apply (proj2 (guard_checks_existence_only world_disabled 0
                  (signed "k3y" ops_claims) ops_claims "opsuser" "ops"
                  Hd eq_refl eq_refl)
           disabled_record (Some true)).
  - vm_compute; reflexivity.
  - reflexivity.
Defined.

Lemma timegm_fromtimestamp n : timegm (fromtimestamp n) = n.
Proof. unfold timegm, fromtimestamp. apply Z.div_mul. lia. Qed.

Lemma depends_current_user_bearer w now tok :
  depends_current_user w now (Some tok) = get_current_user w now tok.
Proof. reflexivity. Qed.

Lemma get_current_user_decode_error w now tok err :
  Jose.decode tok (SECRET_KEY w) [ALGORITHM] now = inl err ->
  get_current_user w now tok = Raise credentials_exception.
Proof. intros H. unfold get_current_user. now rewrite H. Qed.

(** C4, as the specification words it, does not hold: the token [login]
    issues to [opsuser] at clock value 0 expires at second 1800, and at the
    first instant of that second the guard still resolves it. *)
Lemma bearer_refused_from_expiry_on_fails : ~ bearer_refused_from_expiry_on.
Proof.
  intros H.
  assert (Hl : login world0 0 "opsuser" "secret"
               = Return (mkToken (signed "k3y" ops_claims) "bearer"))
    by (vm_compute; reflexivity).
  destruct (H world0 0 "opsuser" "secret" _ ops_claims 1800 Hl eq_refl eq_refl)
    as (_ & Hat & _).
  specialize (Hat (fromtimestamp 1800) (Z.le_refl _)).
  assert (Hg : get_current_user world0 (fromtimestamp 1800)
                 (signed "k3y" ops_claims) = Return ops_record)
    by (vm_compute; reflexivity).
  simpl access_token in Hat. rewrite Hg in Hat. exact Hat.
Qed.

(** C4 (amended): every bearer token issued by [login] carries an expiry
    fixed at issuance, the whole second of the issuance time plus 30
    minutes.  Verified in any later second the token is refused with
    Unauthenticated (401); verified in the expiry second itself or earlier,
    one second before in particular, it is not refused for expiry. *)
Theorem bearer_token_expiry w t_login name password (tok : Token) :
  login w t_login name password = Return tok ->
  exists body,
    unverified_claims (access_token tok) = Some body
    /\ Jose.exp body = Some (timegm (t_login + minutes 30))
    /\ (forall t, timegm (t_login + minutes 30) < timegm t ->
          get_current_user w t (access_token tok) = Raise credentials_exception
          /\ Unauthenticated (get_current_user w t (access_token tok)))
    /\ (forall t, timegm t <= timegm (t_login + minutes 30) ->
          Jose.decode (access_token tok) (SECRET_KEY w) [ALGORITHM] t = inr body)
    /\ Jose.decode (access_token tok) (SECRET_KEY w) [ALGORITHM]
         (fromtimestamp (timegm (t_login + minutes 30) - 1)) = inr body.
Proof.
  intros Hl. apply login_inv in Hl as (user & Hu & Hv & ->).
  set (e := timegm (t_login + minutes 30)).
  exists (Jose.mkClaims (Some (username user)) (Some (user_type user)) (Some e)).
  assert (Hvalid : forall t, timegm t <= e ->
    Jose.decode
      (Jose.encode
         (Jose.mkPayload (Some (username user)) (Some (user_type user))
            (Some (t_login + minutes 30))) (SECRET_KEY w) ALGORITHM)
      (SECRET_KEY w) [ALGORITHM] t
    = inr (Jose.mkClaims (Some (username user)) (Some (user_type user)) (Some e))).
  { intros t Ht. apply decode_encode. unfold Jose.validate_exp. simpl.
    apply negb_true_iff, Z.ltb_ge. exact Ht. }
  split; [reflexivity|]. split; [reflexivity|]. split; [|split].
  - intros t Ht. simpl access_token.
    destruct (decode_expired
                (Jose.encode
                   (Jose.mkPayload (Some (username user)) (Some (user_type user))
                      (Some (t_login + minutes 30))) (SECRET_KEY w) ALGORITHM)
                (SECRET_KEY w) t _ e eq_refl eq_refl Ht) as [err He].
    rewrite (get_current_user_decode_error _ _ _ _ He). split; reflexivity.
  - intros t Ht. now apply Hvalid.
  - apply Hvalid. rewrite timegm_fromtimestamp. lia.
Qed.

Lemma bearer_token_expiry_witness :
  login world0 0 "opsuser" "secret"
    = Return (mkToken (signed "k3y" ops_claims) "bearer")
  /\ exists body,
      unverified_claims (signed "k3y" ops_claims) = Some body
      /\ Jose.exp body = Some (timegm (0 + minutes 30))
      /\ (forall t, timegm (0 + minutes 30) < timegm t ->
            get_current_user world0 t (signed "k3y" ops_claims)
              = Raise credentials_exception
            /\ Unauthenticated
                 (get_current_user world0 t (signed "k3y" ops_claims)))
      /\ (forall t, timegm t <= timegm (0 + minutes 30) ->
            Jose.decode (signed "k3y" ops_claims) (SECRET_KEY world0)
              [ALGORITHM] t = inr body)
      /\ Jose.decode (signed "k3y" ops_claims) (SECRET_KEY world0) [ALGORITHM]
           (fromtimestamp (timegm (0 + minutes 30) - 1)) = inr body.
Proof.
  assert (Hl : login world0 0 "opsuser" "secret"
               = Return (mkToken (signed "k3y" ops_claims) "bearer"))
    by (vm_compute; reflexivity).
  split; [exact Hl|].
  exact (bearer_token_expiry world0 0 "opsuser" "secret" _ Hl).
Defined.

(** C5: for every user name whose record is in the Credential Store and
    every password that verifies against the stored hash, [login] returns a
    bearer token which the guard, before the token expires and with the same
    store, resolves to exactly that user name and the role stored for it. *)
Theorem login_then_guard w t_login t_guard name password user :
  keyed_by_username (fake_users_db w) ->
  fake_users_db w !! name = Some user ->
  verify_password password (hashed_password user) = true ->
  timegm t_guard <= timegm (t_login + minutes 30) ->
  exists tok resolved,
    login w t_login name password = Return tok
    /\ token_type tok = "bearer"
    /\ depends_current_user w t_guard (Some (access_token tok)) = Return resolved
    /\ username resolved = name
    /\ Some (user_type resolved) = user_type <$> fake_users_db w !! name.
Proof.
  intros Hk Hu Hv Ht.
  eexists. exists user. split; [apply (login_ok _ _ _ _ _ Hu Hv)|].
  split; [reflexivity|]. split; [|split].
  - rewrite depends_current_user_bearer. cbn [access_token].
    rewrite (Hk _ _ Hu).
    rewrite (get_current_user_lookup w t_guard _
               (Jose.mkClaims (Some name) (Some (user_type user))
                  (Some (timegm (t_login + minutes 30))))
               name (user_type user));
      [rewrite Hu; reflexivity | | reflexivity | reflexivity].
    apply decode_encode. unfold Jose.validate_exp. simpl.
    apply negb_true_iff, Z.ltb_ge. exact Ht.
  - apply (Hk _ _ Hu).
  - now rewrite Hu.
Qed.

Lemma login_then_guard_witness :
  exists tok resolved,
    login world0 0 "clientuser" "secret" = Return tok
    /\ token_type tok = "bearer"
    /\ depends_current_user world0 (fromtimestamp 1799) (Some (access_token tok))
       = Return resolved
    /\ username resolved = "clientuser"
    /\ Some (user_type resolved) = user_type <$> fake_users_db world0 !! "clientuser".
Proof.
  apply (login_then_guard world0 0 (fromtimestamp 1799) "clientuser" "secret"
           client_record).
  - apply initial_users_keyed.
  - vm_compute; reflexivity.
  - reflexivity.
  - vm_compute. discriminate.
Defined.

(** ** The download authorisation flow *)

Section download.

Implicit Types (w : World) (grant : Grant.t) (file_info : FileInfo.t).

Lemma contains_get {V} k (d : list (string * V)) :
  PyDict.contains k d = true <-> is_Some (PyDict.get k d).
Proof.
  unfold PyDict.contains. destruct (PyDict.get k d); split; intros H;
    try reflexivity; try discriminate; eauto.
  destruct H; discriminate.
Qed.

(** What [download_file] answers depends on the table entry only through
    its file id. *)
Lemma download_file_result w token grant :
  download_tokens_db w !! token = Some grant ->
  fst (download_file w token) =
  match PyDict.get (Grant.file_id grant) (files_db w) with
  | None => Raise (not_found "File not found")
  | Some file_info =>
      Return (mkFileResponse (FileInfo.file_path file_info)
                (FileInfo.filename file_info) "application/octet-stream")
  end.
Proof.
  intros H. unfold download_file. rewrite H.
  now destruct (PyDict.get _ _).
Qed.

Lemma download_file_frame w token : snd (download_file w token) = w.
Proof.
  unfold download_file.
  destruct (download_tokens_db w !! token); [|reflexivity].
  now destruct (PyDict.get _ _).
Qed.

(** A successful [get_download_link]: the caller is a client, the file is
    registered, and the new state is the old one with one more grant. *)
Lemma get_download_link_inv w t_auth t_mint uuid4 auth file_id link w' :
  get_download_link w t_auth t_mint uuid4 auth file_id = (Return link, w') ->
  exists user file_info,
    depends_client_user w t_auth auth = Return user
    /\ PyDict.get file_id (files_db w) = Some file_info
    /\ link = mkDownloadLink ("/download-file/" +:+ uuid4) "success"
    /\ w' = with_grant w uuid4
              (Grant.mk file_id (username user) (t_mint + minutes 30)).
Proof.
  unfold get_download_link.
  destruct (depends_client_user w t_auth auth) as [user|e]; [|discriminate].
  destruct (PyDict.contains file_id (files_db w)) eqn:Hc; simpl; [|discriminate].
  apply contains_get in Hc as [file_info Hf].
  intros [= <- <-]. exists user, file_info. auto.
Qed.

End download.

(** C1: the code serves a grant whose window has elapsed.  [world2] holds
    the grant [grant-1] minted at second 1000 with [expires] at second 2800;
    at second 999999, and at any other time, [download_file] answers with
    the file, since it never reads [expires]. *)
Theorem expired_grant_is_served :
  download_tokens_db world2 !! "grant-1" = Some grant1
  /\ Grant.expires grant1 < fromtimestamp 999999
  /\ fst (download_file world2 "grant-1") = Return file1_response
  /\ ~ expired_grant_not_found.
Proof.
  assert (Hg : download_tokens_db world2 !! "grant-1" = Some grant1)
    by (vm_compute; reflexivity).
  assert (Hr : fst (download_file world2 "grant-1") = Return file1_response)
    by (vm_compute; reflexivity).
  assert (Hlt : Grant.expires grant1 < fromtimestamp 999999)
    by (vm_compute; reflexivity).
  repeat split; try assumption.
  intros H. specialize (H world2 "grant-1" grant1 (fromtimestamp 999999) Hg Hlt).
  rewrite Hr in H. exact H.
Qed.

(** C6: for every grant token, [download_file] fails with NotFound (404)
    when the token is not in the grant table, fails with NotFound when it is
    but its file id is not in the File Registry, and for a token that is
    present and unexpired returns the storage path and the original file
    name the registry records under the grant's file id; a grant minted by
    [get_download_link] for a file id redeems to the record of that very
    file id. *)
Theorem redeem_grant_cases w token :
  (download_tokens_db w !! token = None ->
     fst (download_file w token) = Raise (not_found "Invalid download link")
     /\ NotFound (fst (download_file w token)))
  /\ (forall grant,
        download_tokens_db w !! token = Some grant ->
        PyDict.get (Grant.file_id grant) (files_db w) = None ->
        fst (download_file w token) = Raise (not_found "File not found")
        /\ NotFound (fst (download_file w token)))
  /\ (forall grant file_info now,
        download_tokens_db w !! token = Some grant ->
        now <= Grant.expires grant ->
        PyDict.get (Grant.file_id grant) (files_db w) = Some file_info ->
        fst (download_file w token)
        = Return (mkFileResponse (FileInfo.file_path file_info)
                    (FileInfo.filename file_info) "application/octet-stream"))
  /\ (forall w0 t_auth t_mint auth file_id link,
        get_download_link w0 t_auth t_mint token auth file_id = (Return link, w) ->
        exists file_info,
          PyDict.get file_id (files_db w0) = Some file_info
          /\ fst (download_file w token)
             = Return (mkFileResponse (FileInfo.file_path file_info)
                         (FileInfo.filename file_info)
                         "application/octet-stream")).
Proof.
  split; [|split; [|split]].
  - intros H. unfold download_file. rewrite H. split; reflexivity.
  - intros grant Hg Hf. rewrite (download_file_result _ _ _ Hg), Hf.
    split; reflexivity.
  - intros grant file_info now Hg _ Hf.
    now rewrite (download_file_result _ _ _ Hg), Hf.
  - intros w0 t_auth t_mint auth file_id link Hl.
    apply get_download_link_inv in Hl as (user & file_info & _ & Hf & _ & ->).
    exists file_info. split; [assumption|].
    erewrite download_file_result; [|apply lookup_insert_eq].
    simpl. now rewrite Hf.
Qed.

Lemma redeem_grant_cases_witness :
  (download_tokens_db world2 !! "grant-0" = None
   /\ NotFound (fst (download_file world2 "grant-0")))
  /\ (download_tokens_db (with_grant world0 "grant-1" grant1) !! "grant-1"
        = Some grant1
      /\ PyDict.get (Grant.file_id grant1)
           (files_db (with_grant world0 "grant-1" grant1)) = None
      /\ NotFound (fst (download_file (with_grant world0 "grant-1" grant1)
                          "grant-1")))
  /\ (download_tokens_db world2 !! "grant-1" = Some grant1
      /\ fromtimestamp 2000 <= Grant.expires grant1
      /\ PyDict.get (Grant.file_id grant1) (files_db world2) = Some file1_record
      /\ fst (download_file world2 "grant-1") = Return file1_response).
Proof.
  assert (H0 : download_tokens_db world2 !! "grant-0" = None)
    by (vm_compute; reflexivity).
  assert (H1 : download_tokens_db (with_grant world0 "grant-1" grant1) !! "grant-1"
               = Some grant1) by (vm_compute; reflexivity).
  assert (H2 : PyDict.get (Grant.file_id grant1)
                 (files_db (with_grant world0 "grant-1" grant1)) = None)
    by reflexivity.
  assert (H3 : download_tokens_db world2 !! "grant-1" = Some grant1)
    by (vm_compute; reflexivity).
  assert (H4 : fromtimestamp 2000 <= Grant.expires grant1)
    by (vm_compute; discriminate).
  assert (H5 : PyDict.get (Grant.file_id grant1) (files_db world2)
               = Some file1_record) by (vm_compute; reflexivity).
  split; [|split].
  - split; [exact H0|].
    exact (proj2 (proj1 (redeem_grant_cases world2 "grant-0") H0)).
  - split; [exact H1|]. split; [exact H2|].
    exact (proj2 (proj1 (proj2 (redeem_grant_cases
                                  (with_grant world0 "grant-1" grant1) "grant-1"))
                    grant1 H1 H2)).
  - split; [exact H3|]. split; [exact H4|]. split; [exact H5|].
    exact (proj1 (proj2 (proj2 (redeem_grant_cases world2 "grant-1")))
             grant1 file1_record (fromtimestamp 2000) H3 H4 H5).
Defined.

(** C7: for every authenticated caller and file id, [get_download_link]
    fails with Forbidden (403) when the caller's role is not client; for a
    client it fails with NotFound (404) when the file id is not in the File
    Registry, and otherwise returns the newly drawn grant token packaged as
    the relative path [/download-file/<token>], the grant being stored
    under that token for this file id, this caller and 30 minutes. *)
Theorem create_grant_cases w t_auth t_mint uuid4 auth file_id user :
  depends_current_user w t_auth auth = Return user ->
  (user_type user <> "client" ->
     get_download_link w t_auth t_mint uuid4 auth file_id
       = (Raise forbidden_client, w)
     /\ Forbidden (fst (get_download_link w t_auth t_mint uuid4 auth file_id)))
  /\ (user_type user = "client" ->
      PyDict.get file_id (files_db w) = None ->
      get_download_link w t_auth t_mint uuid4 auth file_id
        = (Raise (not_found "File not found"), w)
      /\ NotFound (fst (get_download_link w t_auth t_mint uuid4 auth file_id)))
  /\ (user_type user = "client" ->
      is_Some (PyDict.get file_id (files_db w)) ->
      get_download_link w t_auth t_mint uuid4 auth file_id
        = (Return (mkDownloadLink ("/download-file/" +:+ uuid4) "success"),
           with_grant w uuid4
             (Grant.mk file_id (username user) (t_mint + minutes 30)))).
Proof.
  intros Hu. unfold get_download_link, depends_client_user. rewrite Hu.
  cbn [mbind result_bind]. split; [|split].
  - intros Hr. rewrite (role_gate_client_refuses _ Hr). split; reflexivity.
  - intros Hr Hf. rewrite (proj2 (role_gate_client user) Hr).
    unfold PyDict.contains. rewrite Hf. split; reflexivity.
  - intros Hr [file_info Hf]. rewrite (proj2 (role_gate_client user) Hr).
    unfold PyDict.contains. rewrite Hf. reflexivity.
Qed.

Lemma create_grant_cases_witness :
  (depends_current_user world1 0 ops_bearer = Return ops_record
   /\ user_type ops_record <> "client"
   /\ Forbidden (fst (get_download_link world1 0 0 "grant-1" ops_bearer "file-1")))
  /\ (depends_current_user world1 0 client_bearer = Return client_record
      /\ user_type client_record = "client"
      /\ PyDict.get "file-9" (files_db world1) = None
      /\ NotFound (fst (get_download_link world1 0 0 "grant-1" client_bearer
                          "file-9")))
  /\ (is_Some (PyDict.get "file-1" (files_db world1))
      /\ get_download_link world1 0 0 "grant-1" client_bearer "file-1"
         = (Return (mkDownloadLink ("/download-file/" +:+ "grant-1") "success"),
            with_grant world1 "grant-1"
              (Grant.mk "file-1" (username client_record) (0 + minutes 30)))).
Proof.
  assert (Ho : depends_current_user world1 0 ops_bearer = Return ops_record)
    by (vm_compute; reflexivity).
  assert (Hc : depends_current_user world1 0 client_bearer = Return client_record)
    by (vm_compute; reflexivity).
  assert (Hro : user_type ops_record <> "client") by discriminate.
  assert (Hrc : user_type client_record = "client") by reflexivity.
  assert (H9 : PyDict.get "file-9" (files_db world1) = None)
    by (vm_compute; reflexivity).
  assert (H1 : is_Some (PyDict.get "file-1" (files_db world1)))
    by (exists file1_record; vm_compute; reflexivity).
  split; [|split].
  - split; [exact Ho|]. split; [exact Hro|].
    exact (proj2 (proj1 (create_grant_cases world1 0 0 "grant-1" ops_bearer
                           "file-1" ops_record Ho) Hro)).
  - split; [exact Hc|]. split; [exact Hrc|]. split; [exact H9|].
    exact (proj2 (proj1 (proj2 (create_grant_cases world1 0 0 "grant-1"
                                  client_bearer "file-9" client_record Hc))
                    Hrc H9)).
  - split; [exact H1|].
    exact (proj2 (proj2 (create_grant_cases world1 0 0 "grant-1" client_bearer
                           "file-1" client_record Hc)) Hrc H1).
Defined.

(** C9: for every grant token in the grant table whose file id is
    registered, [download_file] succeeds and leaves the whole state, grant
    table and File Registry included, as it was, so that the same token
    redeems again with the same answer; the answer does not depend on the
    grantee the grant records, and the route takes no caller identity to
    compare it with. *)
Theorem redeem_is_read_only w token grant file_info :
  download_tokens_db w !! token = Some grant ->
  PyDict.get (Grant.file_id grant) (files_db w) = Some file_info ->
  snd (download_file w token) = w
  /\ download_tokens_db (snd (download_file w token)) = download_tokens_db w
  /\ files_db (snd (download_file w token)) = files_db w
  /\ fst (download_file w token)
     = Return (mkFileResponse (FileInfo.file_path file_info)
                 (FileInfo.filename file_info) "application/octet-stream")
  /\ download_file (snd (download_file w token)) token = download_file w token
  /\ (forall grantee,
        fst (download_file
               (with_grant w token
                  (Grant.mk (Grant.file_id grant) grantee (Grant.expires grant)))
               token)
        = fst (download_file w token)).
Proof.
  intros Hg Hf. rewrite !download_file_frame.
  repeat split.
  - now rewrite (download_file_result _ _ _ Hg), Hf.
  - intros grantee.
    rewrite (download_file_result _ _ _ Hg).
    erewrite download_file_result; [|apply lookup_insert_eq]. reflexivity.
Qed.

Lemma redeem_is_read_only_witness :
  download_tokens_db world2 !! "grant-1" = Some grant1
  /\ PyDict.get (Grant.file_id grant1) (files_db world2) = Some file1_record
  /\ snd (download_file world2 "grant-1") = world2
  /\ fst (download_file world2 "grant-1") = Return file1_response
  /\ download_file (snd (download_file world2 "grant-1")) "grant-1"
     = download_file world2 "grant-1"
  /\ fst (download_file
            (with_grant world2 "grant-1"
               (Grant.mk (Grant.file_id grant1) "opsuser" (Grant.expires grant1)))
            "grant-1")
     = fst (download_file world2 "grant-1").
Proof.
  assert (Hg : download_tokens_db world2 !! "grant-1" = Some grant1)
    by (vm_compute; reflexivity).
  assert (Hf : PyDict.get (Grant.file_id grant1) (files_db world2)
               = Some file1_record) by (vm_compute; reflexivity).
  destruct (redeem_is_read_only world2 "grant-1" grant1 file1_record Hg Hf)
    as (H1 & _ & _ & H2 & H3 & H4).
  split; [exact Hg|]. split; [exact Hf|]. split; [exact H1|].
  split; [exact H2|]. split; [exact H3|]. exact (H4 "opsuser").
Defined.

(** C10: [list_files] is gated to the client role.  A caller whose bearer
    token resolves to the role [ops], or to any role other than [client],
    is rejected with Forbidden (403); file records are returned only to a
    caller resolved with the role [client], who receives the records of the
    registry in insertion order. *)
Theorem list_files_client_only w t_auth auth :
  (forall user,
     depends_current_user w t_auth auth = Return user ->
     user_type user = "ops" ->
     list_files w t_auth auth = Raise forbidden_client
     /\ Forbidden (list_files w t_auth auth))
  /\ (forall user,
        depends_current_user w t_auth auth = Return user ->
        user_type user = "client" ->
        list_files w t_auth auth = Return (PyDict.values (files_db w)))
  /\ (forall records,
        list_files w t_auth auth = Return records ->
        records = PyDict.values (files_db w)
        /\ exists user,
             depends_current_user w t_auth auth = Return user
             /\ user_type user = "client").
Proof.
  unfold list_files, depends_client_user.
  split; [|split].
  - intros user Hu Hr. rewrite Hu. cbn [mbind result_bind].
    rewrite role_gate_client_refuses by (rewrite Hr; discriminate).
    split; reflexivity.
  - intros user Hu Hr. rewrite Hu. cbn [mbind result_bind].
    now rewrite (proj2 (role_gate_client user) Hr).
  - intros records.
    destruct (depends_current_user w t_auth auth) as [user|e];
      cbn [mbind result_bind]; [|discriminate].
    destruct (String.eqb_spec (user_type user) "client") as [Hr|Hr].
    + rewrite (proj2 (role_gate_client user) Hr). intros [= <-]. eauto.
    + rewrite (role_gate_client_refuses _ Hr). discriminate.
Qed.

Lemma list_files_client_only_witness :
  (depends_current_user world2 0 ops_bearer = Return ops_record
   /\ user_type ops_record = "ops"
   /\ Forbidden (list_files world2 0 ops_bearer))
  /\ (depends_current_user world2 0 client_bearer = Return client_record
      /\ user_type client_record = "client"
      /\ list_files world2 0 client_bearer = Return [file1_record]).
Proof.
  assert (Ho : depends_current_user world2 0 ops_bearer = Return ops_record)
    by (vm_compute; reflexivity).
  assert (Hc : depends_current_user world2 0 client_bearer = Return client_record)
    by (vm_compute; reflexivity).
  split.
  - split; [exact Ho|]. split; [reflexivity|].
    exact (proj2 (proj1 (list_files_client_only world2 0 ops_bearer)
                    ops_record Ho eq_refl)).
  - split; [exact Hc|]. split; [reflexivity|].
    exact (proj1 (proj2 (list_files_client_only world2 0 client_bearer))
             client_record Hc eq_refl).
Defined.

(** ** The upload check *)

Lemma validate_file_type_allowed filename :
  validate_file_type filename =
  if allowed_nocase (snd (PyStr.splitext filename)) then Return tt
  else Raise unsupported_file_type.
Proof.
  unfold validate_file_type. rewrite lower_in_allowed.
  now destruct (allowed_nocase _).
Qed.

(** C8: for every file name, [validate_file_type] rejects with
    UnsupportedFileType (400) exactly when the extension of the name,
    compared without regard to case, is none of [.pptx], [.docx], [.xlsx],
    and accepts exactly when it is one of the three; [Report.PPTX] is
    accepted.  On a name made of a stem and a dotted suffix the extension
    is that suffix, and [upload_file] called by an ops user answers 400 in
    exactly the rejected cases, writing nothing. *)
Theorem upload_extension_check filename :
  (validate_file_type filename = Raise unsupported_file_type
   <-> allowed_nocase (snd (PyStr.splitext filename)) = false)
  /\ (UnsupportedFileType (validate_file_type filename)
      <-> allowed_nocase (snd (PyStr.splitext filename)) = false)
  /\ (validate_file_type filename = Return tt
      <-> allowed_nocase (snd (PyStr.splitext filename)) = true)
  /\ validate_file_type "Report.PPTX" = Return tt
  /\ (forall stem suffix,
        named stem suffix -> filename = stem +:+ String "." suffix ->
        (validate_file_type filename = Return tt
         <-> existsb (eq_nocase suffix) ["pptx"; "docx"; "xlsx"] = true))
  /\ (forall w t_auth t_upload uuid4 auth content user,
        depends_ops_user w t_auth auth = Return user ->
        (upload_file w t_auth t_upload uuid4 auth filename content
           = (Raise unsupported_file_type, w)
         <-> allowed_nocase (snd (PyStr.splitext filename)) = false)).
Proof.
  split; [|split; [|split; [|split; [|split]]]].
  - rewrite validate_file_type_allowed.
    destruct (allowed_nocase _); split; congruence.
  - rewrite validate_file_type_allowed.
    destruct (allowed_nocase _); simpl; split; try congruence; tauto.
  - rewrite validate_file_type_allowed.
    destruct (allowed_nocase _); split; congruence.
  - reflexivity.
  - intros stem suffix Hn ->. rewrite validate_file_type_allowed.
    rewrite (splitext_named _ _ Hn). cbn [snd].
    assert (E : allowed_nocase (String "." suffix)
                = existsb (eq_nocase suffix) ["pptx"; "docx"; "xlsx"])
      by reflexivity.
    rewrite E. destruct (existsb _ _); split; congruence.
  - intros w t_auth t_upload uuid4 auth content user Hu.
    unfold upload_file. rewrite Hu, validate_file_type_allowed.
    destruct (allowed_nocase _); split; congruence.
Qed.

Lemma upload_extension_check_witness :
  named "Report" "PPTX"
  /\ (validate_file_type "Report.PPTX" = Return tt
      <-> existsb (eq_nocase "PPTX") ["pptx"; "docx"; "xlsx"] = true)
  /\ depends_ops_user world0 0 ops_bearer = Return ops_record
  /\ (upload_file world0 0 0 "file-1" ops_bearer "Report.PPTX" "bytes"
        = (Raise unsupported_file_type, world0)
      <-> allowed_nocase (snd (PyStr.splitext "Report.PPTX")) = false).
Proof.
  assert (Hn : named "Report" "PPTX").
  { split; [|split; reflexivity].
    exists "", "R"%char, "eport". repeat split; discriminate. }
  assert (Ho : depends_ops_user world0 0 ops_bearer = Return ops_record)
    by (vm_compute; reflexivity).
  destruct (upload_extension_check "Report.PPTX") as (_ & _ & _ & _ & H1 & H2).
  split; [exact Hn|]. split; [exact (H1 "Report" "PPTX" Hn eq_refl)|].
  split; [exact Ho|].
  exact (H2 world0 0 0 "file-1" ops_bearer "bytes" ops_record Ho).
Defined.

(** * Further properties of the code *)

(** ** The ordered dictionary *)

Section pydict.

Context {V : Type}.
Implicit Types (d : list (string * V)) (k : string) (v : V).

Lemma get_nil k : PyDict.get k ([] : list (string * V)) = None.
Proof. reflexivity. Qed.

Lemma get_cons k k' v d :
  PyDict.get k ((k', v) :: d) = if String.eqb k' k then Some v else PyDict.get k d.
Proof. unfold PyDict.get. simpl. now destruct (String.eqb k' k). Qed.

Lemma get_set_eq k v d : PyDict.get k (PyDict.set k v d) = Some v.
Proof.
  induction d as [|[k' v'] d IH]; simpl.
  - now rewrite get_cons, String.eqb_refl.
  - destruct (String.eqb k' k) eqn:E; rewrite get_cons, E; auto.
Qed.

Lemma get_set_ne k k' v d :
  k <> k' -> PyDict.get k' (PyDict.set k v d) = PyDict.get k' d.
Proof.
  intros Hne. induction d as [|[k0 v0] d IH]; simpl.
  - rewrite get_cons. destruct (String.eqb_spec k k'); [contradiction | reflexivity].
  - destruct (String.eqb_spec k0 k) as [->|Hk]; rewrite !get_cons.
    + destruct (String.eqb_spec k k'); [contradiction | reflexivity].
    + now rewrite IH.
Qed.

(** A new key goes to the end of the listing. *)
Lemma values_set_fresh k v d :
  PyDict.get k d = None -> PyDict.values (PyDict.set k v d) = PyDict.values d ++ [v].
Proof.
  induction d as [|[k' v'] d IH]; simpl; [reflexivity|].
  rewrite get_cons. destruct (String.eqb k' k); [discriminate|].
  intros H. unfold PyDict.values in *. simpl. now rewrite IH.
Qed.

(** Writing never changes the keys already there nor their order. *)
Lemma keys_set_present k v d :
  is_Some (PyDict.get k d) -> map fst (PyDict.set k v d) = map fst d.
Proof.
  induction d as [|[k' v'] d IH]; simpl.
  - intros [x Hx]. discriminate.
  - rewrite get_cons. destruct (String.eqb k' k); [reflexivity|].
    intros H. simpl. now rewrite IH.
Qed.

End pydict.

(** ** Authentication *)

Section authentication.

Implicit Types (w : World) (tok : Jose.token) (body : Jose.claims).

Lemma validate_exp_spec body now :
  Jose.validate_exp body now = true <->
  forall e, Jose.exp body = Some e -> timegm now <= e.
Proof.
  unfold Jose.validate_exp. destruct (Jose.exp body) as [e|].
  - rewrite negb_true_iff, Z.ltb_ge. split.
    + intros H e' [= <-]. exact H.
    + intros H. now apply H.
  - split; [discriminate | reflexivity].
Qed.

Lemma timegm_mono t1 t2 : t1 <= t2 -> timegm t1 <= timegm t2.
Proof. intros H. unfold timegm. apply Z.div_le_mono; lia. Qed.

Lemma get_current_user_outcome w now tok :
  (exists user, get_current_user w now tok = Return user)
  \/ get_current_user w now tok = Raise credentials_exception.
Proof.
  destruct (get_current_user w now tok) as [user|e] eqn:E; [eauto|].
  right. f_equal. eapply get_current_user_failure, E.
Qed.

(** The guard reads the secret key and the credential store, nothing
    else. *)
Lemma get_current_user_ext w w' now tok :
  SECRET_KEY w' = SECRET_KEY w -> fake_users_db w' = fake_users_db w ->
  get_current_user w' now tok = get_current_user w now tok.
Proof. intros Hk Hu. unfold get_current_user. now rewrite Hk, Hu. Qed.

Lemma depends_current_user_ext w w' now auth :
  SECRET_KEY w' = SECRET_KEY w -> fake_users_db w' = fake_users_db w ->
  depends_current_user w' now auth = depends_current_user w now auth.
Proof.
  intros Hk Hu. destruct auth as [tok|]; [|reflexivity].
  rewrite !depends_current_user_bearer. now apply get_current_user_ext.
Qed.

Lemma upload_file_keeps_accounts w t_auth t_upload uuid4 auth fname content :
  SECRET_KEY (snd (upload_file w t_auth t_upload uuid4 auth fname content))
    = SECRET_KEY w
  /\ fake_users_db (snd (upload_file w t_auth t_upload uuid4 auth fname content))
     = fake_users_db w
  /\ download_tokens_db
       (snd (upload_file w t_auth t_upload uuid4 auth fname content))
     = download_tokens_db w.
Proof.
  unfold upload_file.
  destruct (depends_ops_user w t_auth auth); [|auto].
  destruct (validate_file_type fname); auto.
Qed.

Lemma get_download_link_keeps w t_auth t_mint uuid4 auth file_id :
  SECRET_KEY (snd (get_download_link w t_auth t_mint uuid4 auth file_id))
    = SECRET_KEY w
  /\ fake_users_db (snd (get_download_link w t_auth t_mint uuid4 auth file_id))
     = fake_users_db w
  /\ files_db (snd (get_download_link w t_auth t_mint uuid4 auth file_id))
     = files_db w
  /\ uploaded_files (snd (get_download_link w t_auth t_mint uuid4 auth file_id))
     = uploaded_files w.
Proof.
  unfold get_download_link.
  destruct (depends_client_user w t_auth auth); [|auto].
  destruct (PyDict.contains file_id (files_db w)); auto.
Qed.

End authentication.









(** X6: no request passes both role gates.  With the same credentials and
    clock, a successful upload means [list_files] and [get_download_link]
    answer 403, and a successful listing means [upload_file] answers 403
    and writes nothing. *)
Theorem roles_are_exclusive w t auth :
  (forall t_upload uuid4 fname content response,
     fst (upload_file w t t_upload uuid4 auth fname content) = Return response ->
     list_files w t auth = Raise forbidden_client
     /\ forall t_mint token file_id,
          get_download_link w t t_mint token auth file_id
          = (Raise forbidden_client, w))
  /\ (forall records,
        list_files w t auth = Return records ->
        forall t_upload uuid4 fname content,
          upload_file w t t_upload uuid4 auth fname content
          = (Raise forbidden_ops, w)).
Proof.
  unfold upload_file, list_files, get_download_link,
    depends_ops_user, depends_client_user.
  destruct (depends_current_user w t auth) as [user|e]; cbn [mbind result_bind].
  - unfold get_current_ops_user, get_current_client_user.
    destruct (String.eqb_spec (user_type user) "ops") as [Ho|Ho];
      destruct (String.eqb_spec (user_type user) "client") as [Hc|Hc];
      cbn [negb mbind result_bind mret result_ret]; try congruence.
    + split; [|discriminate]. intros. split; reflexivity.
    + split; [discriminate|]. intros. reflexivity.
    + split; discriminate.
  - split; discriminate.
Qed.

Lemma roles_are_exclusive_witness :
  fst (upload_file world0 0 0 "file-1" ops_bearer "Q3.xlsx" "bytes")
    = Return (mkUploadResponse "File uploaded successfully" "file-1")
  /\ list_files world0 0 ops_bearer = Raise forbidden_client
  /\ list_files world1 0 client_bearer = Return [file1_record]
  /\ upload_file world1 0 0 "file-2" client_bearer "Q4.xlsx" "bytes"
     = (Raise forbidden_ops, world1).
Proof.
  assert (Hu : fst (upload_file world0 0 0 "file-1" ops_bearer "Q3.xlsx" "bytes")
               = Return (mkUploadResponse "File uploaded successfully" "file-1"))
    by (vm_compute; reflexivity).
  assert (Hl : list_files world1 0 client_bearer = Return [file1_record])
    by (vm_compute; reflexivity).
  split; [exact Hu|].
  split; [exact (proj1 (proj1 (roles_are_exclusive world0 0 ops_bearer)
                          0 "file-1" "Q3.xlsx" "bytes" _ Hu))|].
  split; [exact Hl|].
  exact (proj2 (roles_are_exclusive world1 0 client_bearer) _ Hl
           0 "file-2" "Q4.xlsx" "bytes").
Defined.

(** X7: an [upload_file] that fails writes nothing: the state is the one
    before the call.  The role gate comes before the extension check, so a
    caller who is not an operations user gets 403 whatever the file name,
    an allowed one or not. *)
Theorem upload_failure_frame w t_auth t_upload uuid4 auth fname content :
  (forall e,
     fst (upload_file w t_auth t_upload uuid4 auth fname content) = Raise e ->
     snd (upload_file w t_auth t_upload uuid4 auth fname content) = w
     /\ (status_code e = 401 \/ status_code e = 403 \/ status_code e = 400))
  /\ (forall user,
        depends_current_user w t_auth auth = Return user ->
        user_type user <> "ops" ->
        upload_file w t_auth t_upload uuid4 auth fname content
        = (Raise forbidden_ops, w)).
Proof.
  unfold upload_file, depends_ops_user. split.
  - intros e.
    destruct auth as [tok|]; cbn [depends_current_user oauth2_scheme mbind result_bind].
    + destruct (get_current_user_outcome w t_auth tok) as [[u ->]| ->];
        cbn [mbind result_bind].
      * unfold get_current_ops_user.
        destruct (negb _); cbn [fst snd].
        -- intros [= <-]. auto.
        -- rewrite validate_file_type_allowed.
           destruct (allowed_nocase _); cbn [fst snd]; [discriminate|].
           intros [= <-]. auto.
      * cbn [fst snd]. intros [= <-]. auto.
    + cbn [fst snd]. intros [= <-]. auto.
  - intros user -> Hr. cbn [mbind result_bind]. unfold get_current_ops_user.
    destruct (String.eqb_spec (user_type user) "ops"); [contradiction | reflexivity].
Qed.

Lemma upload_failure_frame_witness :
  fst (upload_file world1 0 0 "file-2" ops_bearer "notes.txt" "bytes")
    = Raise unsupported_file_type
  /\ snd (upload_file world1 0 0 "file-2" ops_bearer "notes.txt" "bytes") = world1
  /\ depends_current_user world1 0 client_bearer = Return client_record
  /\ upload_file world1 0 0 "file-2" client_bearer "notes.txt" "bytes"
     = (Raise forbidden_ops, world1).
Proof.
  assert (H : fst (upload_file world1 0 0 "file-2" ops_bearer "notes.txt" "bytes")
              = Raise unsupported_file_type) by (vm_compute; reflexivity).
  assert (Hc : depends_current_user world1 0 client_bearer = Return client_record)
    by (vm_compute; reflexivity).
  destruct (upload_failure_frame world1 0 0 "file-2" ops_bearer "notes.txt" "bytes")
    as [H1 _].
  destruct (upload_failure_frame world1 0 0 "file-2" client_bearer "notes.txt"
              "bytes") as [_ H2].
  split; [exact H|]. split; [exact (proj1 (H1 _ H))|]. split; [exact Hc|].
  apply (H2 client_record Hc). discriminate.
Defined.

(** ** Uploads and the registry *)

Section uploads.

Implicit Types (w : World).

Lemma path_join_storage uuid4 :
  PyStr.startswith_sep uuid4 = false ->
  PyStr.path_join FILE_STORAGE uuid4 = "uploaded_files/" +:+ uuid4.
Proof. intros H. unfold PyStr.path_join. now rewrite H. Qed.

(** The state after an accepted upload. *)
Lemma upload_file_accepted w t_auth t_upload uuid4 auth fname content user :
  depends_ops_user w t_auth auth = Return user ->
  allowed_nocase (snd (PyStr.splitext fname)) = true ->
  upload_file w t_auth t_upload uuid4 auth fname content
  = (Return (mkUploadResponse "File uploaded successfully" uuid4),
     mkWorld (SECRET_KEY w) (fake_users_db w)
       (PyDict.set uuid4
          (uploaded_record uuid4 fname (username user) t_upload) (files_db w))
       (download_tokens_db w)
       (<[PyStr.path_join FILE_STORAGE uuid4 := content]> (uploaded_files w))).
Proof.
  intros Hu Ha. unfold upload_file.
  now rewrite Hu, validate_file_type_allowed, Ha.
Qed.

Lemma depends_client_user_ext w w' now auth :
  SECRET_KEY w' = SECRET_KEY w -> fake_users_db w' = fake_users_db w ->
  depends_client_user w' now auth = depends_client_user w now auth.
Proof.
  intros Hk Hu. unfold depends_client_user.
  now rewrite (depends_current_user_ext w w' now auth Hk Hu).
Qed.

(** What a later request needs to know about the state after an accepted
    upload. *)
Lemma upload_registers_file_parts w t_auth t_upload uuid4 auth fname content user :
  depends_ops_user w t_auth auth = Return user ->
  allowed_nocase (snd (PyStr.splitext fname)) = true ->
  PyStr.startswith_sep uuid4 = false ->
  PyDict.get uuid4
    (files_db (snd (upload_file w t_auth t_upload uuid4 auth fname content)))
  = Some (FileInfo.mk uuid4 fname (username user) t_upload
            ("uploaded_files/" +:+ uuid4))
  /\ uploaded_files (snd (upload_file w t_auth t_upload uuid4 auth fname content))
       !! ("uploaded_files/" +:+ uuid4) = Some content
  /\ SECRET_KEY (snd (upload_file w t_auth t_upload uuid4 auth fname content))
     = SECRET_KEY w
  /\ fake_users_db (snd (upload_file w t_auth t_upload uuid4 auth fname content))
     = fake_users_db w.
Proof.
  intros Hu Ha Hs.
  rewrite (upload_file_accepted _ _ _ _ _ _ _ _ Hu Ha). cbn [fst snd].
  unfold uploaded_record. rewrite (path_join_storage _ Hs).
  cbn [files_db uploaded_files fake_users_db SECRET_KEY].
  split; [apply get_set_eq|]. split; [apply lookup_insert_eq|].
  split; reflexivity.
Qed.

End uploads.

(** X8: an upload by an operations user with an allowed extension answers
    with the drawn id and registers, under that id, the file name as given,
    the caller's user name, the clock value and the path
    [uploaded_files/<id>]; the content is written at that path.  Records
    under other ids and files at other paths are untouched, and so are the
    credential store, the grant table and the key. *)
Theorem upload_registers_file w t_auth t_upload uuid4 auth fname content user :
  depends_ops_user w t_auth auth = Return user ->
  allowed_nocase (snd (PyStr.splitext fname)) = true ->
  PyStr.startswith_sep uuid4 = false ->
  fst (upload_file w t_auth t_upload uuid4 auth fname content)
    = Return (mkUploadResponse "File uploaded successfully" uuid4)
  /\ PyDict.get uuid4
       (files_db (snd (upload_file w t_auth t_upload uuid4 auth fname content)))
     = Some (FileInfo.mk uuid4 fname (username user) t_upload
               ("uploaded_files/" +:+ uuid4))
  /\ uploaded_files (snd (upload_file w t_auth t_upload uuid4 auth fname content))
       !! ("uploaded_files/" +:+ uuid4) = Some content
  /\ (forall k, k <> uuid4 ->
        PyDict.get k
          (files_db (snd (upload_file w t_auth t_upload uuid4 auth fname content)))
        = PyDict.get k (files_db w))
  /\ (forall p, p <> "uploaded_files/" +:+ uuid4 ->
        uploaded_files (snd (upload_file w t_auth t_upload uuid4 auth fname content))
          !! p = uploaded_files w !! p)
  /\ fake_users_db (snd (upload_file w t_auth t_upload uuid4 auth fname content))
     = fake_users_db w
  /\ download_tokens_db
       (snd (upload_file w t_auth t_upload uuid4 auth fname content))
     = download_tokens_db w.
Proof.
  intros Hu Ha Hs.
  rewrite (upload_file_accepted _ _ _ _ _ _ _ _ Hu Ha). cbn [fst snd].
  unfold uploaded_record. rewrite (path_join_storage _ Hs).
  cbn [files_db uploaded_files fake_users_db download_tokens_db].
  split; [reflexivity|]. split; [apply get_set_eq|].
  split; [apply lookup_insert_eq|].
  split; [intros k Hk; apply get_set_ne; congruence|].
  split; [intros p Hp; apply lookup_insert_ne; congruence|].
  split; reflexivity.
Qed.

Lemma upload_registers_file_witness :
  depends_ops_user world0 (fromtimestamp 10) ops_bearer = Return ops_record
  /\ allowed_nocase (snd (PyStr.splitext "Q3.xlsx")) = true
  /\ PyDict.get "file-1" (files_db world1) = Some file1_record
  /\ uploaded_files world1 !! ("uploaded_files/" +:+ "file-1") = Some "bytes".
Proof.
  assert (Ho : depends_ops_user world0 (fromtimestamp 10) ops_bearer
               = Return ops_record) by (vm_compute; reflexivity).
  destruct (upload_registers_file world0 (fromtimestamp 10) (fromtimestamp 10)
              "file-1" ops_bearer "Q3.xlsx" "bytes" ops_record Ho eq_refl eq_refl)
    as (_ & H1 & H2 & _).
  split; [exact Ho|]. split; [reflexivity|]. split; [exact H1 | exact H2].
Defined.

(** X9: after an accepted upload under an id that is not yet registered, a
    client's listing is the listing before the upload followed by the new
    record: earlier records keep their place and content.  When the id is
    already registered, its record is replaced where it stands and the ids
    listed, and their order, stay the same. *)
Theorem upload_extends_listing w t_auth t_upload uuid4 auth fname content user :
  depends_ops_user w t_auth auth = Return user ->
  allowed_nocase (snd (PyStr.splitext fname)) = true ->
  (PyDict.get uuid4 (files_db w) = None ->
   forall t auth_c records,
     list_files w t auth_c = Return records ->
     list_files (snd (upload_file w t_auth t_upload uuid4 auth fname content))
       t auth_c
     = Return (records
               ++ [uploaded_record uuid4 fname (username user) t_upload]))
  /\ (is_Some (PyDict.get uuid4 (files_db w)) ->
      map fst (files_db
                 (snd (upload_file w t_auth t_upload uuid4 auth fname content)))
      = map fst (files_db w)).
Proof.
  intros Hu Ha.
  rewrite (upload_file_accepted _ _ _ _ _ _ _ _ Hu Ha). cbn [snd]. split.
  - intros Hfresh t auth_c records Hl.
    unfold list_files in *.
    rewrite (depends_client_user_ext w _ t auth_c) by reflexivity.
    destruct (depends_client_user w t auth_c) as [uc|e];
      cbn [mbind result_bind] in *; [|discriminate].
    injection Hl as <-. cbn [files_db].
    unfold mret, result_ret. f_equal. now apply values_set_fresh.
  - intros Hp. cbn [files_db]. now apply keys_set_present.
Qed.

Lemma upload_extends_listing_witness :
  list_files world1 0 client_bearer = Return [file1_record]
  /\ list_files
       (snd (upload_file world1 20 30 "file-2" ops_bearer "Plan.DOCX" "more"))
       0 client_bearer
     = Return ([file1_record]
               ++ [uploaded_record "file-2" "Plan.DOCX" (username ops_record) 30]).
Proof.
  assert (Ho : depends_ops_user world1 20 ops_bearer = Return ops_record)
    by (vm_compute; reflexivity).
  assert (Hl : list_files world1 0 client_bearer = Return [file1_record])
    by (vm_compute; reflexivity).
  assert (Hf : PyDict.get "file-2" (files_db world1) = None)
    by (vm_compute; reflexivity).
  split; [exact Hl|].
  exact (proj1 (upload_extends_listing world1 20 30 "file-2" ops_bearer
                  "Plan.DOCX" "more" ops_record Ho eq_refl)
           Hf 0 client_bearer _ Hl).
Defined.

(** X10: [get_download_link] never changes the File Registry, the
    credential store, the key or the stored files, and leaves the grants
    under every other token as they were; when it fails it changes
    nothing at all. *)
Theorem grant_frame w t_auth t_mint uuid4 auth file_id :
  files_db (snd (get_download_link w t_auth t_mint uuid4 auth file_id))
    = files_db w
  /\ fake_users_db (snd (get_download_link w t_auth t_mint uuid4 auth file_id))
     = fake_users_db w
  /\ SECRET_KEY (snd (get_download_link w t_auth t_mint uuid4 auth file_id))
     = SECRET_KEY w
  /\ uploaded_files (snd (get_download_link w t_auth t_mint uuid4 auth file_id))
     = uploaded_files w
  /\ (forall token, token <> uuid4 ->
        download_tokens_db
          (snd (get_download_link w t_auth t_mint uuid4 auth file_id)) !! token
        = download_tokens_db w !! token)
  /\ (forall e,
        fst (get_download_link w t_auth t_mint uuid4 auth file_id) = Raise e ->
        snd (get_download_link w t_auth t_mint uuid4 auth file_id) = w).
Proof.
  destruct (get_download_link_keeps w t_auth t_mint uuid4 auth file_id)
    as (Hk & Hu & Hf & Hs).
  repeat (split; [assumption|]).
  unfold get_download_link.
  destruct (depends_client_user w t_auth auth) as [user|e0];
    [|split; [reflexivity | intros; reflexivity]].
  destruct (PyDict.contains file_id (files_db w)); cbn [negb fst snd].
  - split; [|discriminate].
    intros token Hne. cbn [download_tokens_db].
    apply lookup_insert_ne. congruence.
  - split; [reflexivity | intros; reflexivity].
Qed.

Lemma grant_frame_witness :
  download_tokens_db
    (snd (get_download_link world2 0 0 "grant-2" client_bearer "file-1"))
    !! "grant-1" = Some grant1
  /\ fst (get_download_link world2 0 0 "grant-2" client_bearer "file-9")
     = Raise (not_found "File not found")
  /\ snd (get_download_link world2 0 0 "grant-2" client_bearer "file-9") = world2.
Proof.
  assert (Hg : download_tokens_db world2 !! "grant-1" = Some grant1)
    by (vm_compute; reflexivity).
  assert (He : fst (get_download_link world2 0 0 "grant-2" client_bearer "file-9")
               = Raise (not_found "File not found")) by (vm_compute; reflexivity).
  destruct (grant_frame world2 0 0 "grant-2" client_bearer "file-1")
    as (_ & _ & _ & _ & H1 & _).
  destruct (grant_frame world2 0 0 "grant-2" client_bearer "file-9")
    as (_ & _ & _ & _ & _ & H2).
  split; [rewrite H1 by discriminate; exact Hg|].
  split; [exact He | exact (H2 _ He)].
Defined.

(** X11: upload, grant, redeem.  When an operations user uploads a file
    with an allowed extension under an id and a client then asks for a link
    to that id, the link is [/download-file/<token>], and redeeming the
    token answers with the path the upload wrote, the file name as
    uploaded, and the generic binary media type; the content stored at that
    path is the content uploaded. *)
Theorem upload_grant_redeem w t1 t_upload uuid_file auth_o fname content
    t2 t_mint uuid_grant auth_c ops_user client_user :
  depends_ops_user w t1 auth_o = Return ops_user ->
  allowed_nocase (snd (PyStr.splitext fname)) = true ->
  PyStr.startswith_sep uuid_file = false ->
  depends_client_user w t2 auth_c = Return client_user ->
  let w1 := snd (upload_file w t1 t_upload uuid_file auth_o fname content) in
  let w2 := snd (get_download_link w1 t2 t_mint uuid_grant auth_c uuid_file) in
  fst (get_download_link w1 t2 t_mint uuid_grant auth_c uuid_file)
    = Return (mkDownloadLink ("/download-file/" +:+ uuid_grant) "success")
  /\ fst (download_file w2 uuid_grant)
     = Return (mkFileResponse ("uploaded_files/" +:+ uuid_file) fname
                 "application/octet-stream")
  /\ uploaded_files w2 !! ("uploaded_files/" +:+ uuid_file) = Some content.
Proof.
  intros Ho Ha Hs Hc w1 w2.
  destruct (upload_registers_file_parts w t1 t_upload uuid_file auth_o fname
              content ops_user Ho Ha Hs) as (Hget & Hdisk & Hk & Hu).
  fold w1 in Hget, Hdisk, Hk, Hu.
  assert (Hc1 : depends_client_user w1 t2 auth_c = Return client_user)
    by (rewrite (depends_client_user_ext w w1 t2 auth_c Hk Hu); exact Hc).
  assert (Hl : get_download_link w1 t2 t_mint uuid_grant auth_c uuid_file
               = (Return (mkDownloadLink ("/download-file/" +:+ uuid_grant)
                            "success"),
                  with_grant w1 uuid_grant
                    (Grant.mk uuid_file (username client_user)
                       (t_mint + minutes 30)))).
  { unfold get_download_link. rewrite Hc1. unfold PyDict.contains.
    now rewrite Hget. }
  subst w2. rewrite Hl. cbn [fst snd].
  split; [reflexivity|]. split.
  - erewrite download_file_result; [|apply lookup_insert_eq].
    cbn [Grant.file_id with_grant files_db]. now rewrite Hget.
  - exact Hdisk.
Qed.

Lemma upload_grant_redeem_witness :
  fst (get_download_link world1 (fromtimestamp 1000) (fromtimestamp 1000)
         "grant-1" client_bearer "file-1")
    = Return (mkDownloadLink ("/download-file/" +:+ "grant-1") "success")
  /\ fst (download_file world2 "grant-1")
     = Return (mkFileResponse ("uploaded_files/" +:+ "file-1") "Q3.xlsx"
                 "application/octet-stream")
  /\ uploaded_files world2 !! ("uploaded_files/" +:+ "file-1") = Some "bytes".
Proof.
  assert (Ho : depends_ops_user world0 (fromtimestamp 10) ops_bearer
               = Return ops_record) by (vm_compute; reflexivity).
  assert (Hc : depends_client_user world0 (fromtimestamp 1000) client_bearer
               = Return client_record) by (vm_compute; reflexivity).
  exact (upload_grant_redeem world0 (fromtimestamp 10) (fromtimestamp 10)
           "file-1" ops_bearer "Q3.xlsx" "bytes" (fromtimestamp 1000)
           (fromtimestamp 1000) "grant-1" client_bearer ops_record
           client_record Ho eq_refl eq_refl Hc).
Defined.

(** X12: who is authenticated does not depend on the files and grants:
    after any upload, any link request and any redemption, the guard
    answers every token as before, and [login] issues the same tokens. *)
Theorem authentication_frame w t auth :
  (forall t_auth t_upload uuid4 auth' fname content,
     depends_current_user
       (snd (upload_file w t_auth t_upload uuid4 auth' fname content)) t auth
     = depends_current_user w t auth)
  /\ (forall t_auth t_mint uuid4 auth' file_id,
        depends_current_user
          (snd (get_download_link w t_auth t_mint uuid4 auth' file_id)) t auth
        = depends_current_user w t auth)
  /\ (forall token,
        depends_current_user (snd (download_file w token)) t auth
        = depends_current_user w t auth)
  /\ (forall t_auth t_upload uuid4 auth' fname content name password,
        login (snd (upload_file w t_auth t_upload uuid4 auth' fname content))
          t name password
        = login w t name password)
  /\ (forall t_auth t_mint uuid4 auth' file_id name password,
        login (snd (get_download_link w t_auth t_mint uuid4 auth' file_id))
          t name password
        = login w t name password).
Proof.
  split; [|split; [|split; [|split]]].
  - intros. apply depends_current_user_ext;
      apply (upload_file_keeps_accounts w t_auth t_upload uuid4 auth' fname content).
  - intros. apply depends_current_user_ext;
      apply (get_download_link_keeps w t_auth t_mint uuid4 auth' file_id).
  - intros. now rewrite download_file_frame.
  - intros.
    destruct (upload_file_keeps_accounts w t_auth t_upload uuid4 auth' fname content)
      as (Hk & Hu & _).
    unfold login. now rewrite Hk, Hu.
  - intros.
    destruct (get_download_link_keeps w t_auth t_mint uuid4 auth' file_id)
      as (Hk & Hu & _).
    unfold login. now rewrite Hk, Hu.
Qed.

(** X13: what [read_users_me] returns is a record of the credential store
    as it stands there, password hash included: it is stored under some
    user name, and any password that verifies against the returned hash
    logs that user name in. *)
Theorem me_returns_stored_record w t auth user :
  read_users_me w t auth = Return user ->
  exists name,
    fake_users_db w !! name = Some user
    /\ forall t' password,
         verify_password password (hashed_password user) = true ->
         exists tok, login w t' name password = Return tok.
Proof.
  unfold read_users_me. destruct auth as [tok|]; [|discriminate].
  rewrite depends_current_user_bearer. intros H.
  apply get_current_user_inv in H as (body & name & role & _ & _ & _ & Hu).
  exists name. split; [assumption|].
  intros t' password Hv. eexists. apply (login_ok _ _ _ _ _ Hu Hv).
Qed.

Lemma me_returns_stored_record_witness :
  read_users_me world0 0 client_bearer = Return client_record
  /\ exists name,
       fake_users_db world0 !! name = Some client_record
       /\ forall t' password,
            verify_password password (hashed_password client_record) = true ->
            exists tok, login world0 t' name password = Return tok.
Proof.
  assert (H : read_users_me world0 0 client_bearer = Return client_record)
    by (vm_compute; reflexivity).
  split; [exact H|].
  exact (me_returns_stored_record world0 0 client_bearer client_record H).
Defined.

(** ** File names *)

Section filenames.

Implicit Types (s t p : string).

Lemma eq_nocase_length s : forall t,
  eq_nocase s t = true -> String.length s = String.length t.
Proof.
  induction s as [|c s IH]; intros [|d t]; simpl; try discriminate; auto.
  intros H. apply andb_true_iff in H as [_ H]. f_equal. now apply IH.
Qed.

Lemma allowed_nocase_length ext :
  allowed_nocase ext = true -> String.length ext = 5%nat.
Proof.
  unfold allowed_nocase. rewrite existsb_exists.
  intros (a & Ha & E). apply eq_nocase_length in E. rewrite E.
  simpl in Ha. destruct Ha as [<-|[<-|[<-|[]]]]; reflexivity.
Qed.

Lemma skip_leading_dots_iterations p : forall n start,
  PyStr.skip_leading_dots p start n = true -> (0 < n)%nat.
Proof. intros [|n] start H; [discriminate | lia]. Qed.

(** When [splitext] finds an extension, the root is not empty. *)
Lemma splitext_root_nonempty p :
  snd (PyStr.splitext p) <> EmptyString -> fst (PyStr.splitext p) <> EmptyString.
Proof.
  unfold PyStr.splitext, PyStr.rfind.
  pose proof (rfind_from_bound "/" p 0 (-1)) as Hsep.
  pose proof (rfind_from_bound "." p 0 (-1)) as Hdot.
  destruct (_ <? _) eqn:Hlt; cbn [andb]; [|intros H; now destruct H].
  destruct (PyStr.skip_leading_dots _ _ _) eqn:Hskip; cbn [fst snd];
    [|intros H; now destruct H].
  intros _. apply skip_leading_dots_iterations in Hskip.
  destruct p as [|c p]; [simpl in *; lia|].
  destruct (Z.to_nat (PyStr.rfind_from "." (String c p) 0 (-1))) eqn:E;
    [lia | discriminate].
Qed.

(** A name whose last component starts with its only dot has no
    extension. *)
Lemma splitext_hidden dir suffix :
  dir = EmptyString \/ (exists d, dir = d +:+ "/") ->
  occurs "." suffix = false -> occurs "/" suffix = false ->
  PyStr.splitext (dir +:+ String "." suffix)
  = (dir +:+ String "." suffix, EmptyString).
Proof.
  intros Hdir Hd Hs. unfold PyStr.splitext, PyStr.rfind.
  rewrite (rfind_from_last "." dir suffix 0 (-1) Hd).
  assert (Hsep : PyStr.rfind_from "/" (dir +:+ String "." suffix) 0 (-1)
                 = Z.of_nat (String.length dir) - 1).
  { destruct Hdir as [->|[d ->]].
    - simpl. now rewrite rfind_from_absent.
    - rewrite app_assoc_str, app_cons. change ("" +:+ String "." suffix)
        with (String "." suffix).
      rewrite rfind_from_last by (simpl; exact Hs).
      rewrite length_app_str. simpl. lia. }
  rewrite Hsep.
  replace (Z.to_nat (0 + Z.of_nat (String.length dir)
                     - (Z.of_nat (String.length dir) - 1 + 1))) with 0%nat by lia.
  simpl PyStr.skip_leading_dots. now rewrite andb_false_r.
Qed.

(** A name whose last component has no dot has no extension. *)
Lemma splitext_dotless dir base :
  dir = EmptyString \/ (exists d, dir = d +:+ "/") ->
  occurs "." base = false -> occurs "/" base = false ->
  PyStr.splitext (dir +:+ base) = (dir +:+ base, EmptyString).
Proof.
  intros Hdir Hd Hs. unfold PyStr.splitext, PyStr.rfind.
  assert (Hlt : (PyStr.rfind_from "/" (dir +:+ base) 0 (-1)
                 <? PyStr.rfind_from "." (dir +:+ base) 0 (-1)) = false).
  { apply Z.ltb_ge. destruct Hdir as [->|[d ->]].
    - simpl. rewrite !rfind_from_absent by assumption. lia.
    - rewrite app_assoc_str, app_cons. change ("" +:+ base) with base.
      rewrite rfind_from_last by assumption.
      rewrite rfind_from_app by (simpl; exact Hd).
      pose proof (rfind_from_bound "." d 0 (-1)). lia. }
  now rewrite Hlt.
Qed.

End filenames.

(** X14: a file name that [validate_file_type] accepts is a non-empty root
    followed by an extension of five characters that is [.pptx], [.docx] or
    [.xlsx] up to case; in particular it has at least six characters. *)
Theorem accepted_name_shape fname :
  validate_file_type fname = Return tt ->
  exists root ext,
    fname = root +:+ ext
    /\ root <> EmptyString
    /\ allowed_nocase ext = true
    /\ String.length ext = 5%nat
    /\ (6 <= String.length fname)%nat.
Proof.
  rewrite validate_file_type_allowed.
  destruct (allowed_nocase (snd (PyStr.splitext fname))) eqn:Ha; [|discriminate].
  intros _.
  pose proof (allowed_nocase_length _ Ha) as Hlen.
  assert (Hne : snd (PyStr.splitext fname) <> EmptyString)
    by (intros E; rewrite E in Hlen; discriminate).
  pose proof (splitext_root_nonempty _ Hne) as Hroot.
  exists (fst (PyStr.splitext fname)), (snd (PyStr.splitext fname)).
  split; [symmetry; apply splitext_concat|].
  repeat (split; [assumption|]).
  rewrite <- (splitext_concat fname), length_app_str, Hlen.
  destruct (fst (PyStr.splitext fname)); [contradiction | simpl; lia].
Qed.

Lemma accepted_name_shape_witness :
  validate_file_type "a/b.c/Plan.DocX" = Return tt
  /\ exists root ext,
       "a/b.c/Plan.DocX" = root +:+ ext
       /\ root <> EmptyString
       /\ allowed_nocase ext = true
       /\ String.length ext = 5%nat
       /\ (6 <= String.length "a/b.c/Plan.DocX")%nat.
Proof.
  split; [reflexivity|].
  exact (accepted_name_shape "a/b.c/Plan.DocX" eq_refl).
Defined.

(** X15: a file name whose last path component is a dot followed by
    characters without dot, such as [.pptx] or [reports/.xlsx], has no
    extension for [os.path.splitext] and is rejected with 400, also when
    what follows the dot is an allowed extension. *)
Theorem hidden_name_rejected dir suffix :
  dir = EmptyString \/ (exists d, dir = d +:+ "/") ->
  occurs "." suffix = false -> occurs "/" suffix = false ->
  validate_file_type (dir +:+ String "." suffix) = Raise unsupported_file_type.
Proof.
  intros Hdir Hd Hs. rewrite validate_file_type_allowed.
  now rewrite (splitext_hidden _ _ Hdir Hd Hs).
Qed.

Lemma hidden_name_rejected_witness :
  validate_file_type ("reports/" +:+ String "." "xlsx")
  = Raise unsupported_file_type.
Proof.
  apply (hidden_name_rejected "reports/" "xlsx");
    [right; exists "reports"; reflexivity | reflexivity | reflexivity].
Defined.

(** X16: a file name whose last path component has no dot is rejected with
    400, whatever the directories before it are called: [Q3], [Q3xlsx] and
    [a.xlsx/Q3] are refused. *)
Theorem dotless_name_rejected dir base :
  dir = EmptyString \/ (exists d, dir = d +:+ "/") ->
  occurs "." base = false -> occurs "/" base = false ->
  validate_file_type (dir +:+ base) = Raise unsupported_file_type.
Proof.
  intros Hdir Hd Hs. rewrite validate_file_type_allowed.
  now rewrite (splitext_dotless _ _ Hdir Hd Hs).
Qed.

Lemma dotless_name_rejected_witness :
  validate_file_type ("a.xlsx/" +:+ "Q3") = Raise unsupported_file_type.
Proof.
  apply (dotless_name_rejected "a.xlsx/" "Q3");
    [right; exists "a.xlsx"; reflexivity | reflexivity | reflexivity].
Defined.

(** ** The front end *)

(** The token [login] issues is accepted by the guard at the clock value
    of its issuance. *)
Lemma login_then_guard_parts w t name password user :
  keyed_by_username (fake_users_db w) ->
  fake_users_db w !! name = Some user ->
  verify_password password (hashed_password user) = true ->
  get_current_user w t
    (Jose.encode
       (Jose.mkPayload (Some (username user)) (Some (user_type user))
          (Some (t + minutes 30))) (SECRET_KEY w) ALGORITHM)
  = Return user.
Proof.
  intros Hk Hu Hv. rewrite (Hk _ _ Hu).
  rewrite (get_current_user_lookup w t _
             (Jose.mkClaims (Some name) (Some (user_type user))
                (Some (timegm (t + minutes 30))))
             name (user_type user));
    [now rewrite Hu | | reflexivity | reflexivity].
  apply decode_encode. apply validate_exp_spec. intros e [= <-].
  apply timegm_mono. unfold minutes. lia.
Qed.

Lemma initial_users_cases salt_ops salt_client name user :
  initial_users salt_ops salt_client !! name = Some user ->
  (name = "opsuser" /\ user_type user = "ops")
  \/ (name = "clientuser" /\ user_type user = "client").
Proof.
  unfold initial_users. rewrite !lookup_insert, lookup_empty.
  repeat case_decide; subst; intros [= <-]; auto.
Qed.

(** X17: with the two accounts of the source in the back end, a front-end
    [login] that succeeds stores the user name, a token the back end
    accepts, and as role label the role the back end records for that user;
    one that fails leaves the session as it was.  The label is computed
    from the user name alone: with another operations account in the store
    ([auditor]) the session is labelled [client]. *)
Theorem frontend_role_label key salt_ops salt_client st t name password :
  let backend := initial_world key salt_ops salt_client in
  (forall st',
     Frontend.login st backend t name password = (true, st') ->
     exists user tok,
       fake_users_db backend !! name = Some user
       /\ Frontend.user_type st' = Some (user_type user)
       /\ Frontend.username st' = Some name
       /\ Frontend.token st' = Some tok
       /\ get_current_user backend t tok = Return user)
  /\ (forall st',
        Frontend.login st backend t name password = (false, st') -> st' = st)
  /\ (Frontend.user_type
        (snd (Frontend.login Frontend.initial world_two_ops 0 "auditor" "hunter2"))
      = Some "client"
      /\ user_type <$> fake_users_db world_two_ops !! "auditor" = Some "ops").
Proof.
  intros backend. split; [|split].
  - intros st'. unfold Frontend.login.
    destruct (login backend t name password) as [response|e] eqn:Hl;
      [|discriminate].
    intros [= <-].
    pose proof Hl as Hl'.
    apply login_inv in Hl' as (user & Hu & Hv & ->).
    pose proof (initial_users_keyed salt_ops salt_client) as Hk.
    pose proof (login_then_guard_parts backend t name password user Hk Hu Hv)
      as Hg.
    exists user. eexists. split; [exact Hu|].
    cbn [Frontend.user_type Frontend.username Frontend.token access_token].
    split.
    + destruct (initial_users_cases _ _ _ _ Hu) as [[-> ->]|[-> ->]]; reflexivity.
    + split; [reflexivity|]. split; [reflexivity | exact Hg].
  - intros st'. unfold Frontend.login.
    destruct (login backend t name password); [discriminate|].
    now intros [= <-].
  - split; vm_compute; reflexivity.
Qed.

Lemma frontend_role_label_witness :
  Frontend.login Frontend.initial world0 0 "clientuser" "secret"
    = (true, Frontend.mk client_bearer (Some "client") (Some "clientuser"))
  /\ exists user tok,
       fake_users_db world0 !! "clientuser" = Some user
       /\ Some "client" = Some (user_type user)
       /\ client_bearer = Some tok
       /\ get_current_user world0 0 tok = Return user.
Proof.
  assert (H : Frontend.login Frontend.initial world0 0 "clientuser" "secret"
              = (true, Frontend.mk client_bearer (Some "client")
                         (Some "clientuser"))) by (vm_compute; reflexivity).
  split; [exact H|].
  destruct (proj1 (frontend_role_label "k3y" "salt-o" "salt-c" Frontend.initial
                     0 "clientuser" "secret") _ H)
    as (user & tok & H1 & H2 & _ & H4 & H5).
  exists user, tok. auto.
Defined.

(** ** Reachable states *)

Section reachable_states.

Implicit Types (w : World).

Lemma upload_file_cases w t_auth t_upload uuid4 auth fname content :
  snd (upload_file w t_auth t_upload uuid4 auth fname content) = w
  \/ exists user,
       depends_ops_user w t_auth auth = Return user
       /\ snd (upload_file w t_auth t_upload uuid4 auth fname content)
          = mkWorld (SECRET_KEY w) (fake_users_db w)
              (PyDict.set uuid4
                 (uploaded_record uuid4 fname (username user) t_upload)
                 (files_db w))
              (download_tokens_db w)
              (<[PyStr.path_join FILE_STORAGE uuid4 := content]>
                 (uploaded_files w)).
Proof.
  unfold upload_file.
  destruct (depends_ops_user w t_auth auth) as [user|e]; [|now left].
  destruct (validate_file_type fname); [|now left].
  right. exists user. split; reflexivity.
Qed.

Lemma get_download_link_cases w t_auth t_mint uuid4 auth file_id :
  snd (get_download_link w t_auth t_mint uuid4 auth file_id) = w
  \/ exists user,
       depends_client_user w t_auth auth = Return user
       /\ is_Some (PyDict.get file_id (files_db w))
       /\ snd (get_download_link w t_auth t_mint uuid4 auth file_id)
          = with_grant w uuid4
              (Grant.mk file_id (username user) (t_mint + minutes 30)).
Proof.
  unfold get_download_link.
  destruct (depends_client_user w t_auth auth) as [user|e]; [|now left].
  destruct (PyDict.contains file_id (files_db w)) eqn:Hc; [|now left].
  right. exists user. apply contains_get in Hc. auto.
Qed.

Lemma depends_client_user_inv w t auth user :
  depends_client_user w t auth = Return user ->
  user_type user = "client"
  /\ exists name, fake_users_db w !! name = Some user.
Proof.
  unfold depends_client_user.
  destruct (depends_current_user w t auth) as [u|e] eqn:Hu;
    cbn [mbind result_bind]; [|discriminate].
  intros H.
  assert (u = user).
  { unfold get_current_client_user in H. destruct (negb _); congruence. }
  subst u. split; [now apply role_gate_client|].
  destruct auth as [tok|]; [|discriminate].
  rewrite depends_current_user_bearer in Hu.
  apply get_current_user_inv in Hu as (_ & name & _ & _ & _ & _ & Hn). eauto.
Qed.

Lemma reachable_accounts_fixed w :
  reachable w ->
  exists salt_ops salt_client,
    fake_users_db w = initial_users salt_ops salt_client.
Proof.
  induction 1 as [key so sc disk | w ? ? ? ? ? ? _ IH | w ? ? ? ? ? _ IH
                 | w ? _ IH].
  - cbn [fake_users_db]. eauto.
  - destruct IH as (so & sc & IH). exists so, sc. rewrite <- IH.
    apply upload_file_keeps_accounts.
  - destruct IH as (so & sc & IH). exists so, sc. rewrite <- IH.
    apply get_download_link_keeps.
  - now rewrite download_file_frame.
Qed.

Lemma registry_consistent_upload w t_auth t_upload uuid4 auth fname content :
  registry_consistent w ->
  registry_consistent (snd (upload_file w t_auth t_upload uuid4 auth fname content)).
Proof.
  intros Hc.
  destruct (upload_file_cases w t_auth t_upload uuid4 auth fname content)
    as [-> | (user & _ & ->)]; [assumption|].
  intros k record. cbn [files_db uploaded_files].
  destruct (String.eqb_spec uuid4 k) as [->|Hne].
  - rewrite get_set_eq. intros [= <-]. unfold uploaded_record.
    cbn [FileInfo.file_id FileInfo.file_path].
    split; [reflexivity|]. split; [reflexivity|].
    rewrite lookup_insert_eq. eauto.
  - rewrite get_set_ne by assumption. intros Hk.
    destruct (Hc k record Hk) as (H1 & H2 & H3).
    split; [assumption|]. split; [assumption|].
    rewrite lookup_insert. case_decide; [eauto | assumption].
Qed.

Lemma grants_valid_upload w t_auth t_upload uuid4 auth fname content :
  grants_valid w ->
  grants_valid (snd (upload_file w t_auth t_upload uuid4 auth fname content)).
Proof.
  intros Hg.
  destruct (upload_file_cases w t_auth t_upload uuid4 auth fname content)
    as [-> | (user & _ & ->)]; [assumption|].
  intros token grant. cbn [download_tokens_db files_db fake_users_db].
  intros Ht. destruct (Hg token grant Ht) as (Hf & Hu).
  split; [|assumption].
  destruct (String.eqb_spec uuid4 (Grant.file_id grant)) as [<-|Hne].
  - rewrite get_set_eq. eauto.
  - now rewrite get_set_ne.
Qed.

Lemma grants_valid_link w t_auth t_mint uuid4 auth file_id :
  grants_valid w ->
  grants_valid (snd (get_download_link w t_auth t_mint uuid4 auth file_id)).
Proof.
  intros Hg.
  destruct (get_download_link_cases w t_auth t_mint uuid4 auth file_id)
    as [-> | (user & Hu & Hf & ->)]; [assumption|].
  intros token grant. unfold with_grant.
  cbn [download_tokens_db files_db fake_users_db].
  rewrite lookup_insert. case_decide.
  - intros [= <-]. cbn [Grant.file_id Grant.user_id].
    split; [assumption|].
    apply depends_client_user_inv in Hu as (Hr & name & Hn).
    exists name, user. auto.
  - apply Hg.
Qed.

Lemma reachable_invariants w :
  reachable w -> registry_consistent w /\ grants_valid w.
Proof.
  induction 1 as [key so sc disk | w ? ? ? ? ? ? _ [IH1 IH2]
                 | w t_auth t_mint uuid4 auth file_id _ [IH1 IH2]
                 | w ? _ IH].
  - split.
    + intros k record H. discriminate.
    + intros token grant H. cbn [download_tokens_db] in H.
      rewrite lookup_empty in H. discriminate.
  - split; [now apply registry_consistent_upload | now apply grants_valid_upload].
  - split; [|now apply grants_valid_link].
    destruct (get_download_link_keeps w t_auth t_mint uuid4 auth file_id)
      as (_ & _ & Hf & Hs).
    intros k record. rewrite Hf, Hs. apply IH1.
  - now rewrite download_file_frame.
Qed.

Lemma world2_reachable : reachable world2.
Proof. unfold world2, world1, world0, initial_world. repeat constructor. Qed.

End reachable_states.

(** X18: in every state the service can reach, the credential store is
    the two accounts it starts with: each is stored under its own user
    name, [opsuser] with the role [ops] and [clientuser] with the role
    [client], none is disabled, and each logs in with the password
    [secret].  No route adds, removes or changes an account. *)
Theorem reachable_accounts w :
  reachable w ->
  keyed_by_username (fake_users_db w)
  /\ (forall name user,
        fake_users_db w !! name = Some user ->
        disabled user = Some false
        /\ ((name = "opsuser" /\ user_type user = "ops")
            \/ (name = "clientuser" /\ user_type user = "client"))
        /\ forall t, exists tok, login w t name "secret" = Return tok)
  /\ is_Some (fake_users_db w !! "opsuser")
  /\ is_Some (fake_users_db w !! "clientuser").
Proof.
  intros Hr. destruct (reachable_accounts_fixed w Hr) as (so & sc & Hdb).
  split; [rewrite Hdb; apply initial_users_keyed|].
  split; [|rewrite Hdb; unfold initial_users; split; eexists;
            [apply lookup_insert_eq|
             rewrite lookup_insert_ne by discriminate; apply lookup_insert_eq]].
  intros name user Hu.
  assert (Hv : verify_password "secret" (hashed_password user) = true
               /\ disabled user = Some false).
  { rewrite Hdb in Hu. unfold initial_users in Hu.
    rewrite !lookup_insert, lookup_empty in Hu.
    repeat case_decide; subst; try discriminate;
      injection Hu as <-; split; reflexivity. }
  destruct Hv as [Hv Hd].
  split; [assumption|]. split.
  - rewrite Hdb in Hu. apply (initial_users_cases _ _ _ _ Hu).
  - intros t. eexists. apply (login_ok _ _ _ _ _ Hu Hv).
Qed.

Lemma reachable_accounts_witness :
  reachable world2
  /\ keyed_by_username (fake_users_db world2)
  /\ is_Some (fake_users_db world2 !! "opsuser").
Proof.
  split; [exact world2_reachable|].
  destruct (reachable_accounts world2 world2_reachable) as (H1 & _ & H2 & _).
  split; assumption.
Defined.

(** X19: in every reachable state, what a redemption answers with is on
    disk: the path of the response is [FILE_STORAGE/<id>] for the file id
    of the grant, the name is the one registered under that id, and the
    upload directory holds content at that path. *)
Theorem redeemed_file_is_stored w token response :
  reachable w ->
  fst (download_file w token) = Return response ->
  exists grant record content,
    download_tokens_db w !! token = Some grant
    /\ PyDict.get (Grant.file_id grant) (files_db w) = Some record
    /\ path response = PyStr.path_join FILE_STORAGE (Grant.file_id grant)
    /\ download_name response = FileInfo.filename record
    /\ uploaded_files w !! path response = Some content.
Proof.
  intros Hr. destruct (reachable_invariants w Hr) as [Hc _].
  unfold download_file.
  destruct (download_tokens_db w !! token) as [grant|] eqn:Hg; [|discriminate].
  destruct (PyDict.get (Grant.file_id grant) (files_db w)) as [record|] eqn:Hf;
    [|discriminate].
  cbn [fst]. intros [= <-]. cbn [path download_name].
  destruct (Hc _ _ Hf) as (_ & Hp & [content Hs]).
  exists grant, record, content. rewrite <- Hp. auto.
Qed.

Lemma redeemed_file_is_stored_witness :
  reachable world2
  /\ fst (download_file world2 "grant-1") = Return file1_response
  /\ exists grant record content,
       download_tokens_db world2 !! "grant-1" = Some grant
       /\ PyDict.get (Grant.file_id grant) (files_db world2) = Some record
       /\ path file1_response
          = PyStr.path_join FILE_STORAGE (Grant.file_id grant)
       /\ download_name file1_response = FileInfo.filename record
       /\ uploaded_files world2 !! path file1_response = Some content.
Proof.
  assert (H : fst (download_file world2 "grant-1") = Return file1_response)
    by (vm_compute; reflexivity).
  split; [exact world2_reachable|]. split; [exact H|].
  exact (redeemed_file_is_stored world2 "grant-1" file1_response
           world2_reachable H).
Defined.

(** X20: in every reachable state a token of the grant table redeems: its
    file is still registered, because files are never removed.  The only
    failure of [download_file] is the 404 for a token that is not in the
    table; its second 404, for a missing file, does not occur. *)
Theorem known_grant_redeems w token :
  reachable w ->
  (forall grant,
     download_tokens_db w !! token = Some grant ->
     exists response, fst (download_file w token) = Return response)
  /\ (forall e,
        fst (download_file w token) = Raise e ->
        download_tokens_db w !! token = None
        /\ e = not_found "Invalid download link").
Proof.
  intros Hr. destruct (reachable_invariants w Hr) as [_ Hg]. split.
  - intros grant Ht. destruct (Hg _ _ Ht) as ([record Hf] & _).
    rewrite (download_file_result _ _ _ Ht), Hf. eauto.
  - intros e. unfold download_file.
    destruct (download_tokens_db w !! token) as [grant|] eqn:Ht.
    + destruct (Hg _ _ Ht) as ([record Hf] & _). rewrite Hf. discriminate.
    + cbn [fst]. intros [= <-]. auto.
Qed.

Lemma known_grant_redeems_witness :
  reachable world2
  /\ download_tokens_db world2 !! "grant-1" = Some grant1
  /\ (exists response, fst (download_file world2 "grant-1") = Return response)
  /\ fst (download_file world2 "grant-7") = Raise (not_found "Invalid download link")
  /\ download_tokens_db world2 !! "grant-7" = None.
Proof.
  assert (Hg : download_tokens_db world2 !! "grant-1" = Some grant1)
    by (vm_compute; reflexivity).
  assert (He : fst (download_file world2 "grant-7")
               = Raise (not_found "Invalid download link"))
    by (vm_compute; reflexivity).
  split; [exact world2_reachable|]. split; [exact Hg|].
  split; [exact (proj1 (known_grant_redeems world2 "grant-1" world2_reachable)
                   grant1 Hg)|].
  split; [exact He|].
  exact (proj1 (proj2 (known_grant_redeems world2 "grant-7" world2_reachable)
                  _ He)).
Defined.

(** X21: in every reachable state each grant names, as grantee, the user
    name of a client account of the store, and a file id that is
    registered. *)
Theorem grants_name_clients w token grant :
  reachable w ->
  download_tokens_db w !! token = Some grant ->
  is_Some (PyDict.get (Grant.file_id grant) (files_db w))
  /\ exists user,
       fake_users_db w !! Grant.user_id grant = Some user
       /\ user_type user = "client".
Proof.
  intros Hr Ht. destruct (reachable_invariants w Hr) as [_ Hg].
  destruct (Hg _ _ Ht) as (Hf & name & user & Hu & Hn & Hrole).
  split; [assumption|]. exists user. split; [|assumption].
  destruct (reachable_accounts_fixed w Hr) as (so & sc & Hdb).
  pose proof (initial_users_keyed so sc) as Hk. rewrite <- Hdb in Hk.
  rewrite <- Hn, (Hk _ _ Hu). exact Hu.
Qed.

Lemma grants_name_clients_witness :
  reachable world2
  /\ download_tokens_db world2 !! "grant-1" = Some grant1
  /\ is_Some (PyDict.get (Grant.file_id grant1) (files_db world2))
  /\ exists user,
       fake_users_db world2 !! Grant.user_id grant1 = Some user
       /\ user_type user = "client".
Proof.
  assert (Hg : download_tokens_db world2 !! "grant-1" = Some grant1)
    by (vm_compute; reflexivity).
  split; [exact world2_reachable|]. split; [exact Hg|].
  exact (grants_name_clients world2 "grant-1" grant1 world2_reachable Hg).
Defined.

(** X22: nothing is ever deleted or revoked.  After any upload and any
    link request, every registered file id is still registered, every
    grant token is still in the table and every stored path still holds a
    file; a grant keeps redeeming to the same answer after an upload under
    another id and after a link request drawing another token. *)
Theorem nothing_is_deleted w :
  (forall t_auth t_upload uuid4 auth fname content,
     let w' := snd (upload_file w t_auth t_upload uuid4 auth fname content) in
     (forall k, is_Some (PyDict.get k (files_db w)) ->
                is_Some (PyDict.get k (files_db w')))
     /\ (forall p, is_Some (uploaded_files w !! p) ->
                   is_Some (uploaded_files w' !! p))
     /\ download_tokens_db w' = download_tokens_db w
     /\ (forall token grant,
           download_tokens_db w !! token = Some grant ->
           uuid4 <> Grant.file_id grant ->
           fst (download_file w' token) = fst (download_file w token)))
  /\ (forall t_auth t_mint uuid4 auth file_id,
        let w' := snd (get_download_link w t_auth t_mint uuid4 auth file_id) in
        (forall token, is_Some (download_tokens_db w !! token) ->
                       is_Some (download_tokens_db w' !! token))
        /\ (forall token, token <> uuid4 ->
              fst (download_file w' token) = fst (download_file w token))).
Proof.
  split.
  - intros t_auth t_upload uuid4 auth fname content w'. subst w'.
    destruct (upload_file_cases w t_auth t_upload uuid4 auth fname content)
      as [-> | (user & _ & ->)]; [auto 10|].
    cbn [files_db uploaded_files download_tokens_db].
    split; [|split; [|split]].
    + intros k Hk. destruct (String.eqb_spec uuid4 k) as [->|Hne].
      * rewrite get_set_eq. eauto.
      * now rewrite get_set_ne.
    + intros p Hp. rewrite lookup_insert. case_decide; [eauto | assumption].
    + reflexivity.
    + intros token grant Ht Hne.
      rewrite (download_file_result w _ _ Ht).
      erewrite download_file_result by exact Ht.
      cbn [files_db]. now rewrite get_set_ne.
  - intros t_auth t_mint uuid4 auth file_id w'. subst w'.
    destruct (get_download_link_cases w t_auth t_mint uuid4 auth file_id)
      as [-> | (user & _ & _ & ->)]; [auto|].
    unfold with_grant. split.
    + intros token Ht. cbn [download_tokens_db].
      rewrite lookup_insert. case_decide; [eauto | assumption].
    + intros token Hne. unfold download_file.
      cbn [download_tokens_db files_db].
      rewrite lookup_insert_ne by congruence.
      destruct (download_tokens_db w !! token); [|reflexivity].
      now destruct (PyDict.get _ _).
Qed.

Lemma nothing_is_deleted_witness :
  download_tokens_db world2 !! "grant-1" = Some grant1
  /\ fst (download_file
            (snd (upload_file world2 0 0 "file-2" ops_bearer "Plan.docx" "more"))
            "grant-1")
     = fst (download_file world2 "grant-1")
  /\ is_Some (PyDict.get "file-1"
                (files_db (snd (upload_file world2 0 0 "file-1" ops_bearer
                                  "Plan.docx" "more")))).
Proof.
  assert (Hg : download_tokens_db world2 !! "grant-1" = Some grant1)
    by (vm_compute; reflexivity).
  assert (Hf : is_Some (PyDict.get "file-1" (files_db world2)))
    by (exists file1_record; vm_compute; reflexivity).
  split; [exact Hg|]. split.
  - destruct (proj1 (nothing_is_deleted world2) 0 0 "file-2" ops_bearer
                "Plan.docx" "more") as (_ & _ & _ & H).
    apply (H "grant-1" grant1 Hg). discriminate.
  - destruct (proj1 (nothing_is_deleted world2) 0 0 "file-1" ops_bearer
                "Plan.docx" "more") as (H & _).
    exact (H "file-1" Hf).
Defined.
